(** * Two T-Deck test suite: log analyzer, verdict, discovery and run flow

    Shallow embedding of [test_two_t_decks.py] (class [TDeckTester] and
    [main]).  Python [str] values are sequences of Unicode code points,
    dictionaries are finite maps, Python integers are [Z]. *)

From Stdlib Require Import ZArith NArith Ascii String List Bool Lia.
From stdpp Require Import base option list gmap fin_maps pretty.

Local Open Scope Z_scope.

(** ** Python strings *)

(** A code point, and a [str]: a sequence of code points. *)
Abbreviation code := N.
Abbreviation str := (list N).

(** An ASCII literal of the source as a [str]. *)
Definition lit (s : string) : str :=
  List.map N_of_ascii (list_ascii_of_string s).

Definition is_ascii (c : code) : bool := (c <? 128)%N.
Definition is_ascii_upper (c : code) : bool := ((65 <=? c) && (c <=? 90))%N.

(** The letter K, which every pattern about Kyber itself asks for. *)
Definition capital_K : code := 75%N.

(** [needle in haystack] on strings. *)
Fixpoint startswith (p s : str) : bool :=
  match p, s with
  | [], _ => true
  | _ :: _, [] => false
  | a :: p', b :: s' => (a =? b)%N && startswith p' s'
  end.

Fixpoint str_in (needle hay : str) : bool :=
  startswith needle hay ||
  match hay with
  | [] => false
  | _ :: hay' => str_in needle hay'
  end.

(** ** Regular expressions of the [re] module

    Only the constructs the source's patterns use: literal characters,
    [.] (any character but a line feed), concatenation, [|], [*] and the
    bounded repetition [{m,n}].  [re.search] is used for its truth value
    only, so a pattern is modelled by the language it denotes and the
    search by derivatives. *)

Inductive regex : Type :=
| Void : regex
| Eps : regex
| Chr : code -> regex
| Dot : regex
| Cat : regex -> regex -> regex
| Alt : regex -> regex -> regex
| Star : regex -> regex.

(** [r{0,n}], [r{m}] and [r{m,n}] *)
Fixpoint UpTo (n : nat) (r : regex) : regex :=
  match n with
  | O => Eps
  | S n' => Alt Eps (Cat r (UpTo n' r))
  end.

Fixpoint Exactly (m : nat) (r : regex) : regex :=
  match m with
  | O => Eps
  | S m' => Cat r (Exactly m' r)
  end.

Definition Bounded (m n : nat) (r : regex) : regex :=
  Cat (Exactly m r) (UpTo (n - m) r).

Fixpoint nullable (r : regex) : bool :=
  match r with
  | Void => false
  | Eps => true
  | Chr _ => false
  | Dot => false
  | Cat r1 r2 => nullable r1 && nullable r2
  | Alt r1 r2 => nullable r1 || nullable r2
  | Star _ => true
  end.

Definition line_feed : code := 10%N.

(** Derivative of [r] by the character [c]. *)
Fixpoint deriv (c : code) (r : regex) : regex :=
  match r with
  | Void => Void
  | Eps => Void
  | Chr d => if (c =? d)%N then Eps else Void
  | Dot => if (c =? line_feed)%N then Void else Eps
  | Cat r1 r2 =>
      if nullable r1
      then Alt (Cat (deriv c r1) r2) (deriv c r2)
      else Cat (deriv c r1) r2
  | Alt r1 r2 => Alt (deriv c r1) (deriv c r2)
  | Star r1 => Cat (deriv c r1) (Star r1)
  end.

(** [re.match(r, s) is not None]: some prefix of [s] is matched by [r]. *)
Fixpoint re_match (r : regex) (s : str) : bool :=
  nullable r ||
  match s with
  | [] => false
  | c :: s' => re_match (deriv c r) s'
  end.

(** [re.search(r, s)] as a truth value: [r] matches at some position. *)
Fixpoint re_search (r : regex) (s : str) : bool :=
  re_match r s ||
  match s with
  | [] => false
  | _ :: s' => re_search r s'
  end.

(** The language of a pattern, as the specification of the matcher. *)
Inductive lang : regex -> str -> Prop :=
| lang_eps : lang Eps []
| lang_chr c : lang (Chr c) [c]
| lang_dot c : c <> line_feed -> lang Dot [c]
| lang_cat r1 r2 s1 s2 : lang r1 s1 -> lang r2 s2 -> lang (Cat r1 r2) (s1 ++ s2)
| lang_alt_l r1 r2 s : lang r1 s -> lang (Alt r1 r2) s
| lang_alt_r r1 r2 s : lang r2 s -> lang (Alt r1 r2) s
| lang_star_nil r : lang (Star r) []
| lang_star_cons r s1 s2 : lang r s1 -> lang (Star r) s2 -> lang (Star r) (s1 ++ s2).

(** [contains c r]: every string of the language of [r] contains [c]
    (a sufficient syntactic check). *)
Fixpoint contains (c : code) (r : regex) : bool :=
  match r with
  | Void => true
  | Eps => false
  | Chr d => (c =? d)%N
  | Dot => false
  | Cat r1 r2 => contains c r1 || contains c r2
  | Alt r1 r2 => contains c r1 && contains c r2
  | Star _ => false
  end.

(** ** Pattern syntax

    [re.compile] for the syntax the source's patterns are written in:
    literal characters, [.], [( )], [|], and the quantifiers [*] and
    [{m,n}].  Any other metacharacter is refused. *)

Definition is_digit (c : code) : bool := ((48 <=? c) && (c <=? 57))%N.

(** The characters the pattern syntax gives a meaning to. *)
Definition is_meta (c : code) : bool :=
  existsb (N.eqb c) (lit ".*|(){}+?[]^$\").

Definition ch_dot : code := 46%N.
Definition ch_star : code := 42%N.
Definition ch_bar : code := 124%N.
Definition ch_lparen : code := 40%N.
Definition ch_rparen : code := 41%N.
Definition ch_lbrace : code := 123%N.
Definition ch_rbrace : code := 125%N.
Definition ch_comma : code := 44%N.

Fixpoint parse_digits_from (acc : nat) (s : str) : nat * str :=
  match s with
  | c :: rest =>
      if is_digit c
      then parse_digits_from (10 * acc + N.to_nat (c - 48)) rest
      else (acc, s)
  | [] => (acc, [])
  end.

(** A decimal number, at least one digit. *)
Definition parse_digits (s : str) : option (nat * str) :=
  match s with
  | c :: _ => if is_digit c then Some (parse_digits_from 0 s) else None
  | [] => None
  end.

(** [m,n}] after an opening brace. *)
Definition parse_bounds (s : str) : option (nat * nat * str) :=
  match parse_digits s with
  | Some (m, c :: rest) =>
      if (c =? ch_comma)%N then
        match parse_digits rest with
        | Some (n, c' :: rest') =>
            if (c' =? ch_rbrace)%N then Some (m, n, rest') else None
        | _ => None
        end
      else None
  | _ => None
  end.

(** The quantifier that may follow an atom. *)
Definition parse_quantifier (r : regex) (s : str) : option (regex * str) :=
  match s with
  | c :: rest =>
      if (c =? ch_star)%N then Some (Star r, rest)
      else if (c =? ch_lbrace)%N then
        match parse_bounds rest with
        | Some (m, n, rest') => Some (Bounded m n r, rest')
        | None => None
        end
      else Some (r, s)
  | [] => Some (r, [])
  end.

(** Alternatives of sequences of quantified atoms; [|] binds weakest. *)
Fixpoint parse_alt (fuel : nat) (s : str) : option (regex * str) :=
  match fuel with
  | O => None
  | S fuel' =>
      match parse_seq fuel' s with
      | Some (r1, c :: rest) =>
          if (c =? ch_bar)%N then
            match parse_alt fuel' rest with
            | Some (r2, rest') => Some (Alt r1 r2, rest')
            | None => None
            end
          else Some (r1, c :: rest)
      | other => other
      end
  end
with parse_seq (fuel : nat) (s : str) : option (regex * str) :=
  match fuel with
  | O => None
  | S fuel' =>
      match s with
      | [] => Some (Eps, [])
      | c :: _ =>
          if ((c =? ch_bar) || (c =? ch_rparen))%N then Some (Eps, s)
          else
            match parse_atom fuel' s with
            | Some (a, rest1) =>
                match parse_quantifier a rest1 with
                | Some (q, rest2) =>
                    match parse_seq fuel' rest2 with
                    | Some (r, rest3) => Some (Cat q r, rest3)
                    | None => None
                    end
                | None => None
                end
            | None => None
            end
      end
  end
with parse_atom (fuel : nat) (s : str) : option (regex * str) :=
  match fuel with
  | O => None
  | S fuel' =>
      match s with
      | [] => None
      | c :: rest =>
          if (c =? ch_dot)%N then Some (Dot, rest)
          else if (c =? ch_lparen)%N then
            match parse_alt fuel' rest with
            | Some (r, c' :: rest') =>
                if (c' =? ch_rparen)%N then Some (r, rest') else None
            | _ => None
            end
          else if is_meta c then None
          else Some (Chr c, rest)
      end
  end.

(** [re.compile(pattern)]; [None] for a pattern outside the syntax above. *)
Definition re_compile (pattern : str) : option regex :=
  match parse_alt (4 * S (length pattern)) pattern with
  | Some (r, []) => Some r
  | _ => None
  end.

(** ** The patterns of [analyze_log_output]

    Each is the source's pattern string, compiled. *)

Definition compiled (pattern : string) : regex :=
  default Void (re_compile (lit pattern)).

Definition pattern_kyber_init : regex :=
  Eval vm_compute in
    compiled "Kyber.*initialized|KyberCryptoEngine.*created".

Definition pattern_key_generation : regex :=
  Eval vm_compute in
    compiled "Kyber keypair generated|generateKeyPair.*success".

Definition pattern_key_exchange_start : regex :=
  Eval vm_compute in
    compiled "Initiating Kyber key exchange|KYBER_MSG_KEY_EXCHANGE_REQUEST".

(** declared in [patterns], never searched for *)
Definition pattern_key_chunk : regex :=
  Eval vm_compute in
    compiled "Kyber.*chunk|KYBER_MSG_KEY_CHUNK".

Definition pattern_session_established : regex :=
  Eval vm_compute in
    compiled "Kyber session established|quantum security.*active".

Definition pattern_quantum_security : regex :=
  Eval vm_compute in
    compiled "quantum.{0,20}security.{0,20}(active|enabled)".

Definition pattern_mesh_packet : regex :=
  Eval vm_compute in
    compiled "packet.*received|packet.*sent|mesh.*message".

Definition pattern_error : regex :=
  Eval vm_compute in
    compiled "ERROR|FAIL|error|fail".

(** ** Dictionaries and the built-ins [all] and [sum] *)

Definition values {V} (d : gmap str V) : list V := (map_to_list d).*2.

Definition py_all (l : list bool) : bool := forallb id l.

Definition py_sum (l : list Z) : Z := foldr Z.add 0 l.

(** What the sum of the values of a dictionary is, said without a list:
    the empty dictionary sums to 0, and a dictionary with one more key
    sums to the new value more. *)
Inductive sums_to : gmap str Z -> Z -> Prop :=
| sums_to_empty : sums_to ∅ 0
| sums_to_insert (d : str) (n : Z) (m : gmap str Z) (total : Z) :
    m !! d = None -> sums_to m total -> sums_to (<[d:=n]> m) (n + total).

(** ** The analysis result

    [results]: one dictionary per category, keyed by device name. *)

Record AnalysisResult : Type := mkAnalysis {
  kyber_init : gmap str bool;
  key_generation : gmap str bool;
  key_exchange_attempts : gmap str Z;
  sessions_established : gmap str Z;
  quantum_security_active : gmap str bool;
  mesh_packets : gmap str Z;
  errors : gmap str Z
}.

Definition empty_results : AnalysisResult :=
  mkAnalysis ∅ ∅ ∅ ∅ ∅ ∅ ∅.

(** [results[cat][device_name] = v] for each category. *)
Definition set_kyber_init (k : str) (v : bool) (r : AnalysisResult) :=
  mkAnalysis (<[k:=v]> (kyber_init r)) (key_generation r)
    (key_exchange_attempts r) (sessions_established r)
    (quantum_security_active r) (mesh_packets r) (errors r).

Definition set_key_generation (k : str) (v : bool) (r : AnalysisResult) :=
  mkAnalysis (kyber_init r) (<[k:=v]> (key_generation r))
    (key_exchange_attempts r) (sessions_established r)
    (quantum_security_active r) (mesh_packets r) (errors r).

Definition set_quantum_security_active (k : str) (v : bool) (r : AnalysisResult) :=
  mkAnalysis (kyber_init r) (key_generation r)
    (key_exchange_attempts r) (sessions_established r)
    (<[k:=v]> (quantum_security_active r)) (mesh_packets r) (errors r).

(** [results[cat][device_name] = 0] and [results[cat][device_name] += 1]
    for the counting categories.  The increment reads the entry first;
    the entry is always there, the defaults being written before the
    lines of a device are scanned. *)
Definition upd_key_exchange_attempts (f : gmap str Z -> gmap str Z) (r : AnalysisResult) :=
  mkAnalysis (kyber_init r) (key_generation r)
    (f (key_exchange_attempts r)) (sessions_established r)
    (quantum_security_active r) (mesh_packets r) (errors r).

Definition upd_sessions_established (f : gmap str Z -> gmap str Z) (r : AnalysisResult) :=
  mkAnalysis (kyber_init r) (key_generation r)
    (key_exchange_attempts r) (f (sessions_established r))
    (quantum_security_active r) (mesh_packets r) (errors r).

Definition upd_mesh_packets (f : gmap str Z -> gmap str Z) (r : AnalysisResult) :=
  mkAnalysis (kyber_init r) (key_generation r)
    (key_exchange_attempts r) (sessions_established r)
    (quantum_security_active r) (f (mesh_packets r)) (errors r).

Definition upd_errors (f : gmap str Z -> gmap str Z) (r : AnalysisResult) :=
  mkAnalysis (kyber_init r) (key_generation r)
    (key_exchange_attempts r) (sessions_established r)
    (quantum_security_active r) (mesh_packets r) (f (errors r)).

Definition incr (k : str) (d : gmap str Z) : gmap str Z :=
  alter (fun n => n + 1) k d.

(** ** The verdict of [test_mesh_communication] *)

Record SuccessCriteria : Type := mkCriteria {
  both_init : bool;
  both_keygen : bool;
  key_exchanges : bool;
  low_errors : bool
}.

Definition success_criteria (analysis : AnalysisResult) : SuccessCriteria :=
  {| both_init := py_all (values (kyber_init analysis));
     both_keygen := py_all (values (key_generation analysis));
     key_exchanges := 0 <? py_sum (values (key_exchange_attempts analysis));
     low_errors := py_all ((fun count => count <? 5) <$> values (errors analysis)) |}.

(** [all(success_criteria.values())] *)
Definition overall_success (c : SuccessCriteria) : bool :=
  py_all [both_init c; both_keygen c; key_exchanges c; low_errors c].

Definition verdict (analysis : AnalysisResult) : bool :=
  overall_success (success_criteria analysis).

(** The seven categories: three hold a boolean, four hold a count.  Each
    has its dictionary in the result and the pattern that feeds it. *)
Inductive flag_category : Type :=
| KyberInit | KeyGeneration | QuantumSecurityActive.

Inductive count_category : Type :=
| KeyExchangeAttempts | SessionsEstablished | MeshPackets | Errors.

Definition flag_of (c : flag_category) (r : AnalysisResult) : gmap str bool :=
  match c with
  | KyberInit => kyber_init r
  | KeyGeneration => key_generation r
  | QuantumSecurityActive => quantum_security_active r
  end.

Definition count_of (c : count_category) (r : AnalysisResult) : gmap str Z :=
  match c with
  | KeyExchangeAttempts => key_exchange_attempts r
  | SessionsEstablished => sessions_established r
  | MeshPackets => mesh_packets r
  | Errors => errors r
  end.

Definition flag_pattern (c : flag_category) : regex :=
  match c with
  | KyberInit => pattern_kyber_init
  | KeyGeneration => pattern_key_generation
  | QuantumSecurityActive => pattern_quantum_security
  end.

Definition count_pattern (c : count_category) : regex :=
  match c with
  | KeyExchangeAttempts => pattern_key_exchange_start
  | SessionsEstablished => pattern_session_established
  | MeshPackets => pattern_mesh_packet
  | Errors => pattern_error
  end.

(** ** Exceptions, and the effects of a run *)

Inductive exn : Type :=
| KeyboardInterrupt : exn      (* not a subclass of [Exception] *)
| TimeoutExpired : exn         (* [subprocess.TimeoutExpired] *)
| OtherException : exn.        (* any other subclass of [Exception] *)

Inductive outcome (A : Type) : Type :=
| Ret : A -> outcome A
| Raise : exn -> outcome A.
Arguments Ret {A} _.
Arguments Raise {A} _.

(** What a run does to the outside world, in order. *)
Inductive event : Type :=
| EvFlash (port device_name : str) (timeout : Z)    (* platformio upload *)
| EvSleep (seconds : Z)                             (* [time.sleep] *)
| EvMonitor (port device_name : str) (duration : Z) (* monitor thread started *)
| EvWriteReport (file : str) (overall : bool).      (* report file written *)

(** A computation: the events it performed and how it ended. *)
Definition M (A : Type) : Type := list event * outcome A.

Definition throw {A} (e : exn) : M A := ([], Raise e).
Definition emit (e : event) : M unit := ([e], Ret tt).

#[export] Instance M_ret : MRet M := fun A a => ([], Ret a).
#[export] Instance M_bind : MBind M := fun A B f m =>
  match m with
  | (t, Ret a) => let '(t', o) := f a in (t ++ t', o)
  | (t, Raise e) => (t, Raise e)
  end.

Definition trace {A} (m : M A) : list event := fst m.
Definition result {A} (m : M A) : outcome A := snd m.

(** Command-line arguments, as [argparse] returns them. *)
Record Args : Type := mkArgs {
  verbose : bool;
  skip_flash : bool;
  test_duration : Z
}.

(** The defaults: no flag given. *)
Definition default_args : Args := mkArgs false false 90.

(** f"T-Deck-{i+1}" *)
Definition device_name_of (i : nat) : str :=
  lit "T-Deck-" ++ lit (pretty (S i)).

Definition report_file : str := lit "kyber_t_deck_test_report.txt".

(** The keywords of [find_t_deck_devices]. *)
Definition keywords : list str :=
  [lit "cp210"; lit "esp32"; lit "serial"; lit "usb"].

(** A serial port as [serial.tools.list_ports.comports()] lists it. *)
Record PortInfo : Type := mkPort {
  device : str;
  description : str
}.

Section TDeckTester.

(** Timestamps (the [float] of [time.time()]); the code never looks at them. *)
Variable Time : Type.

(** The lowercase mapping of [str.lower] outside ASCII, a table of the
    Python runtime: [unicode_lower pre c post] is what the non-ASCII code
    point [c] becomes when it stands between [pre] and [post] (the context
    matters for the Greek capital sigma only). *)
Variable unicode_lower : str -> code -> str -> str.

(** *** [str.lower] *)

Definition lower_char (pre : str) (c : code) (post : str) : str :=
  if is_ascii_upper c then [(c + 32)%N]
  else if is_ascii c then [c]
  else unicode_lower pre c post.

Fixpoint lower_from (pre s : str) : str :=
  match s with
  | [] => []
  | c :: post => lower_char pre c post ++ lower_from (pre ++ [c]) post
  end.

Definition lower (s : str) : str := lower_from [] s.

(** *** [find_t_deck_devices] *)

(** [any(keyword in str(port.description).lower() for keyword in [...])] *)
Definition is_candidate (port : PortInfo) : bool :=
  existsb (fun keyword => str_in keyword (lower (description port))) keywords.

(** [t_deck_ports] after the loop over [ports]. *)
Definition t_deck_ports (ports : list PortInfo) : list str :=
  device <$> List.filter is_candidate ports.

Definition find_t_deck_devices (ports : list PortInfo) : list str :=
  let t_deck_ports := t_deck_ports ports in
  if (length t_deck_ports <? 2)%nat then []
  else take 2 t_deck_ports.

(** *** [analyze_log_output] *)

(** The defaults written for [device_name] before its lines are scanned. *)
Definition init_device (device_name : str) (results : AnalysisResult) : AnalysisResult :=
  let results := set_kyber_init device_name false results in
  let results := set_key_generation device_name false results in
  let results := upd_key_exchange_attempts (<[device_name:=0]>) results in
  let results := upd_sessions_established (<[device_name:=0]>) results in
  let results := set_quantum_security_active device_name false results in
  let results := upd_mesh_packets (<[device_name:=0]>) results in
  upd_errors (<[device_name:=0]>) results.

(** The body of [for timestamp, line in logs]. *)
Definition analyze_line (device_name : str) (results : AnalysisResult)
    (entry : Time * str) : AnalysisResult :=
  let '(timestamp, line) := entry in
  let line_lower := lower line in
  let results :=
    if re_search pattern_kyber_init line_lower
    then set_kyber_init device_name true results else results in
  let results :=
    if re_search pattern_key_generation line_lower
    then set_key_generation device_name true results else results in
  let results :=
    if re_search pattern_key_exchange_start line_lower
    then upd_key_exchange_attempts (incr device_name) results else results in
  let results :=
    if re_search pattern_session_established line_lower
    then upd_sessions_established (incr device_name) results else results in
  let results :=
    if re_search pattern_quantum_security line_lower
    then set_quantum_security_active device_name true results else results in
  let results :=
    if re_search pattern_mesh_packet line_lower
    then upd_mesh_packets (incr device_name) results else results in
  if re_search pattern_error line_lower
  then upd_errors (incr device_name) results else results.

Definition analyze_lines (device_name : str) (logs : list (Time * str))
    (results : AnalysisResult) : AnalysisResult :=
  foldl (analyze_line device_name) results logs.

(** The body of [for device_name, logs in device_logs.items()]. *)
Definition analyze_device (results : AnalysisResult)
    (item : str * list (Time * str)) : AnalysisResult :=
  let '(device_name, logs) := item in
  analyze_lines device_name logs (init_device device_name results).

(** The devices are visited one after the other; no device is visited
    twice, so the order of the visit does not show in the result. *)
Definition analyze_log_output (device_logs : gmap str (list (Time * str)))
    : AnalysisResult :=
  foldl analyze_device empty_results (map_to_list device_logs).

(** What the scan of one device's log amounts to: a line is a hit of a
    pattern when its lowercased text is matched; a boolean category tells
    whether some line was a hit, a counting category how many were. *)
Definition hit (p : regex) (entry : Time * str) : bool :=
  re_search p (lower entry.2).

Definition seen (p : regex) (logs : list (Time * str)) : bool :=
  existsb (hit p) logs.

Definition count (p : regex) (logs : list (Time * str)) : Z :=
  Z.of_nat (length (List.filter (hit p) logs)).

(** *** The outside world of a run *)

Record World : Type := mkWorld {
  (** the serial ports, in enumeration order *)
  comports : list PortInfo;
  (** how [subprocess.run] of the upload to a port ends: the return code
      of the process, or the exception raised *)
  subprocess_run : str -> outcome Z;
  (** what the collector takes from [output_queue] during its window, in
      arrival order: [(device_name, timestamp, line)]; or an interruption *)
  output_queue : outcome (list (str * Time * str))
}.

(** *** [flash_firmware] *)

Definition flash_firmware (w : World) (port device_name : str) : M bool :=
  emit (EvFlash port device_name 300);;
  match subprocess_run w port with
  | Ret returncode => mret (returncode =? 0)
  | Raise TimeoutExpired => mret false
  | Raise OtherException => mret false
  | Raise KeyboardInterrupt => throw KeyboardInterrupt
  end.

(** *** [test_mesh_communication] *)

(** [for i, port in enumerate(ports)]: one monitor thread per port. *)
Fixpoint start_monitors (i : nat) (ports : list str) : M unit :=
  match ports with
  | [] => mret tt
  | port :: rest =>
      emit (EvMonitor port (device_name_of i) 90);;
      start_monitors (S i) rest
  end.

(** [device_logs[device_name].append((timestamp, line))] for each item
    taken from the queue; a name that is no key raises [KeyError]. *)
Fixpoint collect (items : list (str * Time * str))
    (device_logs : gmap str (list (Time * str)))
    : outcome (gmap str (list (Time * str))) :=
  match items with
  | [] => Ret device_logs
  | (device_name, timestamp, line) :: rest =>
      match device_logs !! device_name with
      | Some logs =>
          collect rest (<[device_name := logs ++ [(timestamp, line)]]> device_logs)
      | None => Raise OtherException
      end
  end.

Definition initial_device_logs : gmap str (list (Time * str)) :=
  <[lit "T-Deck-2" := []]> (<[lit "T-Deck-1" := []]> ∅).

Definition test_mesh_communication (w : World) (ports : list str) : M bool :=
  start_monitors 0 ports;;
  match output_queue w with
  | Raise e => throw e
  | Ret items =>
      match collect items initial_device_logs with
      | Raise e => throw e
      | Ret device_logs =>
          let analysis := analyze_log_output device_logs in
          mret (overall_success (success_criteria analysis))
      end
  end.

(** *** [generate_test_report] and [run_tests]

    Of the report only its overall line is kept; the log lines printed on
    the way are left out. *)

(** [overall_success] of the report. *)
Definition report_overall (flash_results : gmap str bool) (mesh_test_result : bool) : bool :=
  py_all (values flash_results) && mesh_test_result.

(** [for i, port in enumerate(ports)] of the flashing step. *)
Fixpoint flash_loop (w : World) (i : nat) (ports : list str)
    (flash_results : gmap str bool) : M (gmap str bool) :=
  match ports with
  | [] => mret flash_results
  | port :: rest =>
      let device_name := device_name_of i in
      success ← flash_firmware w port device_name;
      let flash_results := <[device_name := success]> flash_results in
      (if (success : bool) then emit (EvSleep 10) else mret tt);;
      flash_loop w (S i) rest flash_results
  end.

Definition run_tests (w : World) : M bool :=
  let ports := find_t_deck_devices (comports w) in
  if (length ports <? 2)%nat then mret false
  else
    flash_results ← flash_loop w 0 ports ∅;
    mesh_result ← test_mesh_communication w ports;
    emit (EvWriteReport report_file (report_overall flash_results mesh_result));;
    mret (py_all (values flash_results) && mesh_result).

(** *** [main]: the events of the process and its exit code

    [main] from the point where [parser.parse_args()] has returned the
    namespace [args]: what follows is the tester and the [try] block.
    The parser itself is not modelled; on [--help] or on a command line
    it refuses it ends the process (with 0 or 2) before anything below
    runs.  [args.verbose] goes to the tester and switches the echo of
    serial lines; [args.skip_flash] and [args.test_duration] are read
    nowhere. *)

Definition main (args : Args) (w : World) : list event * Z :=
  match run_tests w with
  | (t, Ret success) => (t, if success then 0 else 1)
  | (t, Raise _) => (t, 1)
  end.

End TDeckTester.

Arguments hit {Time} unicode_lower p entry.
Arguments seen {Time} unicode_lower p logs.
Arguments count {Time} unicode_lower p logs.
Arguments analyze_line {Time} unicode_lower device_name results entry.
Arguments analyze_lines {Time} unicode_lower device_name logs results.
Arguments analyze_device {Time} unicode_lower results item.
Arguments analyze_log_output {Time} unicode_lower device_logs.
Arguments comports {Time} w.
Arguments subprocess_run {Time} w port.
Arguments output_queue {Time} w.
Arguments mkWorld {Time} comports subprocess_run output_queue.
Arguments flash_firmware {Time} w port device_name.
Arguments collect {Time} items device_logs.
Arguments initial_device_logs {Time}.
Arguments test_mesh_communication {Time} unicode_lower w ports.
Arguments flash_loop {Time} w i ports flash_results.
Arguments run_tests {Time} unicode_lower w.
Arguments main {Time} unicode_lower args w.

(** The upload ended with exit status zero within its timeout. *)
Definition exit_ok (o : outcome Z) : bool :=
  match o with
  | Ret returncode => returncode =? 0
  | Raise _ => false
  end.

(** The events of flashing one device: the upload, then the settle delay
    after a success. *)
Definition flash_events (port name : str) (ok : bool) : list event :=
  EvFlash port name 300 :: (if ok then [EvSleep 10] else []).

(** ** Scenarios *)

(** A log all of whose lines carry the timestamp [t]. *)
Definition timed {Time} (t : Time) (lines : list str) : list (Time * str) :=
  (fun line => (t, line)) <$> lines.

(** The three lines of a successful key exchange, as the firmware prints them. *)
Definition handshake_lines : list str :=
  [lit "KyberCryptoEngine created";
   lit "Kyber keypair generated";
   lit "KYBER_MSG_KEY_EXCHANGE_REQUEST sent"].

(** Both devices logged the three lines. *)
Definition handshake_logs {Time} (t : Time) : gmap str (list (Time * str)) :=
  <[lit "T-Deck-2" := timed t handshake_lines]>
    (<[lit "T-Deck-1" := timed t handshake_lines]> ∅).

(** A key-exchange request that also reports an error. *)
Definition exchange_error_line : str :=
  lit "KYBER_MSG_KEY_EXCHANGE_REQUEST error".

(** A line that feeds a boolean category and two counting categories. *)
Definition secure_line : str := lit "quantum security active, no error".

(** A lowercase mapping that leaves every non-ASCII code point alone but
    the Kelvin sign, which becomes the letter k. *)
Definition sample_unicode_lower (pre : str) (c : code) (post : str) : str :=
  if (c =? 8490)%N then [107%N] else [c].

(** One device reports quantum security, the other logged nothing. *)
Definition half_silent_logs : gmap str (list (Z * str)) :=
  <[lit "T-Deck-2" := []]> (<[lit "T-Deck-1" := timed 0 [secure_line]]> ∅).

(** An analysis result that meets the four criteria. *)
Definition passing_analysis : AnalysisResult :=
  {| kyber_init := <[lit "T-Deck-2" := true]> (<[lit "T-Deck-1" := true]> ∅);
     key_generation := <[lit "T-Deck-2" := true]> (<[lit "T-Deck-1" := true]> ∅);
     key_exchange_attempts := <[lit "T-Deck-2" := 1]> (<[lit "T-Deck-1" := 1]> ∅);
     sessions_established := <[lit "T-Deck-2" := 0]> (<[lit "T-Deck-1" := 0]> ∅);
     quantum_security_active := <[lit "T-Deck-2" := false]> (<[lit "T-Deck-1" := false]> ∅);
     mesh_packets := <[lit "T-Deck-2" := 0]> (<[lit "T-Deck-1" := 0]> ∅);
     errors := <[lit "T-Deck-2" := 4]> (<[lit "T-Deck-1" := 0]> ∅) |}.

(** Two boards on the bus, one camera in between. *)
Definition sample_comports : list PortInfo :=
  [mkPort (lit "/dev/ttyUSB0") (lit "CP2102 USB to UART Bridge Controller");
   mkPort (lit "/dev/video0") (lit "Integrated Camera");
   mkPort (lit "/dev/ttyACM0") (lit "Espressif ESP32-S3 JTAG");
   mkPort (lit "/dev/ttyACM1") (lit "Generic Serial Adapter")].

(** Every upload succeeds and the boards stay silent. *)
Definition quiet_world : World Z :=
  mkWorld sample_comports (fun _ => Ret 0) (Ret []).

(** The upload to the first board times out, the other succeeds. *)
Definition timeout_world : World Z :=
  mkWorld sample_comports
    (fun port => if decide (port = lit "/dev/ttyUSB0")
                 then Raise TimeoutExpired else Ret 0)
    (Ret [(lit "T-Deck-1", 3, secure_line)]).

(** One board only. *)
Definition lonely_world : World Z :=
  mkWorld [mkPort (lit "/dev/ttyUSB0") (lit "CP2102 USB to UART Bridge Controller");
           mkPort (lit "/dev/video0") (lit "Integrated Camera")]
    (fun _ => Ret 0) (Ret []).

(** ** [generate_test_report], line by line *)

Definition check_mark : str := [9989%N].            (* U+2705 *)
Definition cross_mark : str := [10060%N].           (* U+274C *)
Definition party_popper : str := [127881%N].        (* U+1F389 *)
Definition warning_sign : str := [9888%N; 65039%N]. (* U+26A0 U+FE0F *)

(** [s * n] *)
Definition repeat_str (s : str) (n : nat) : str := mjoin (replicate n s).

(** [sep.join(parts)] *)
Fixpoint join (sep : str) (parts : list str) : str :=
  match parts with
  | [] => []
  | [part] => part
  | part :: rest => part ++ sep ++ join sep rest
  end.

(** "✅ SUCCESS" if success else "❌ FAILED" *)
Definition status_text (success : bool) : str :=
  if success then check_mark ++ lit " SUCCESS" else cross_mark ++ lit " FAILED".

Definition passed_line : str := party_popper ++ lit " ALL TESTS PASSED!".
Definition failed_line : str := cross_mark ++ lit " SOME TESTS FAILED!".

(** f"  {device}: {status}" *)
Definition flash_line (item : str * bool) : str :=
  lit "  " ++ item.1 ++ lit ": " ++ status_text item.2.

(** The list [report] before it is joined.  [now] is the text of
    [time.strftime], [devices] is [len(self.devices)], and
    [flash_results] holds the items of the dictionary in the order they
    were inserted. *)
Definition report_lines (now : str) (devices : nat)
    (flash_results : list (str * bool)) (mesh_test_result : bool) : list str :=
  [lit "KYBER T-DECK MESH NETWORKING TEST REPORT";
   repeat_str (lit "=") 50;
   lit "Test Date: " ++ now;
   lit "Devices Tested: " ++ lit (pretty devices);
   []] ++
  [lit "FIRMWARE FLASHING RESULTS:";
   repeat_str (lit "-") 30] ++
  (flash_line <$> flash_results) ++
  [[]] ++
  [lit "MESH COMMUNICATION TEST:";
   repeat_str (lit "-") 30;
   lit "  Overall Result: " ++ status_text mesh_test_result;
   []] ++
  [lit "OVERALL TEST RESULT:";
   repeat_str (lit "-") 20] ++
  (if py_all flash_results.*2 && mesh_test_result
   then [passed_line;
         lit "Kyber quantum-resistant mesh networking is working correctly."]
   else [failed_line;
         lit "Check individual test results above for details."]).

Definition generate_test_report (now : str) (devices : nat)
    (flash_results : list (str * bool)) (mesh_test_result : bool) : str :=
  join [line_feed] (report_lines now devices flash_results mesh_test_result).

(** ** The error category, read as a substring test *)

(** The pattern of a word without metacharacters. *)
Fixpoint literal (word : str) : regex :=
  match word with
  | [] => Eps
  | c :: word' => Cat (Chr c) (literal word')
  end.

(** The lowercased line holds "error" or "fail". *)
Definition mentions_error (unicode_lower : str -> code -> str -> str)
    (line : str) : bool :=
  str_in (lit "error") (lower unicode_lower line) ||
  str_in (lit "fail") (lower unicode_lower line).

(** ** [str.strip] and the first line of a text *)

(** The code points [str.isspace] accepts. *)
Definition is_space (c : code) : bool :=
  ((9 <=? c) && (c <=? 13) || (28 <=? c) && (c <=? 32) ||
   (c =? 133) || (c =? 160) || (c =? 5760) ||
   (8192 <=? c) && (c <=? 8202) ||
   (c =? 8232) || (c =? 8233) || (c =? 8239) || (c =? 8287) || (c =? 12288))%N.

Fixpoint lstrip (s : str) : str :=
  match s with
  | c :: s' => if is_space c then lstrip s' else s
  | [] => []
  end.

Definition rstrip (s : str) : str := reverse (lstrip (reverse s)).

Definition strip (s : str) : str := rstrip (lstrip s).

(** [s.split('\n')[0]] *)
Fixpoint first_line (s : str) : str :=
  match s with
  | c :: s' => if (c =? line_feed)%N then [] else c :: first_line s'
  | [] => []
  end.

(** ** The two helper scripts: what they print, run and exit with *)

Module Script.

Inductive exn : Type :=
| FileNotFoundError : exn
| TimeoutExpired : exn         (* [subprocess.TimeoutExpired] *)
| SystemExit (code : Z) : exn  (* [sys.exit(code)] *)
| OtherException : exn.        (* anything else *)

Inductive res (A : Type) : Type :=
| Done : A -> res A
| Failed : exn -> res A.
Arguments Done {A} _.
Arguments Failed {A} _.

(** [subprocess.CompletedProcess] *)
Record CompletedProcess : Type := mkCompleted {
  returncode : Z;
  stdout : str
}.

Inductive io : Type :=
| Print (text : str)                                            (* [print(text)] *)
| Run (argv : list str) (cwd : option str) (timeout : option Z). (* [subprocess.run] *)

Definition IO (A : Type) : Type := list io * res A.

Definition throw {A} (e : exn) : IO A := ([], Failed e).
Definition print (text : str) : IO unit := ([Print text], Done tt).
Definition run (argv : list str) (cwd : option str) (timeout : option Z) : IO unit :=
  ([Run argv cwd timeout], Done tt).

#[global] Instance IO_ret : MRet IO := fun A a => ([], Done a).
#[global] Instance IO_bind : MBind IO := fun A B f m =>
  match m with
  | (t, Done a) => let '(t', o) := f a in (t ++ t', o)
  | (t, Failed e) => (t, Failed e)
  end.

Definition is_run (ev : io) : bool :=
  match ev with
  | Run _ _ _ => true
  | Print _ => false
  end.

Definition output {A} (m : IO A) : list io := m.1.
Definition outcome_of {A} (m : IO A) : res A := m.2.

(** The machine a script runs on. *)
Record Env : Type := mkEnv {
  (** whether [import name] succeeds; otherwise it raises [ImportError] *)
  can_import : str -> bool;
  (** the serial ports, in enumeration order *)
  comports : list PortInfo;
  (** how [subprocess.run(argv, ...)] ends *)
  subprocess_run : list str -> res CompletedProcess
}.

(** [for line in lines: print(line)] *)
Fixpoint print_all (lines : list str) : IO unit :=
  match lines with
  | [] => mret tt
  | line :: rest => print line;; print_all rest
  end.

(** The exit status of a process whose last statement is [sys.exit(m)]. *)
Definition exit_status (m : IO Z) : Z :=
  match outcome_of m with
  | Done code => code
  | Failed (SystemExit code) => code
  | Failed _ => 1
  end.

(** The exit status of a process that just runs [m]. *)
Definition exit_status_unit (m : IO unit) : Z :=
  match outcome_of m with
  | Done _ => 0
  | Failed (SystemExit code) => code
  | Failed _ => 1
  end.

End Script.

(** *** [check_hardware_deps.py] *)

Module CheckHardwareDeps.
Import Script.

Section Defs.

Variable unicode_lower : str -> code -> str -> str.

Definition check_python_package (env : Env) (package_name : str)
    (install_cmd : option str) : IO bool :=
  if can_import env package_name then
    print (check_mark ++ lit " " ++ package_name ++ lit " is installed");;
    mret true
  else
    print (cross_mark ++ lit " " ++ package_name ++ lit " is NOT installed");;
    match install_cmd with
    | Some (c :: cmd) => print (lit "   Install with: " ++ c :: cmd)
    | _ => mret tt
    end;;
    mret false.

Definition check_command (env : Env) (command description : str) : IO bool :=
  run [command; lit "--version"] None (Some 10);;
  match subprocess_run env [command; lit "--version"] with
  | Done result =>
      if returncode result =? 0 then
        let version := first_line (strip (stdout result)) in
        print (check_mark ++ lit " " ++ description ++ lit ": " ++ version);;
        mret true
      else
        print (cross_mark ++ lit " " ++ description ++ lit " not working properly");;
        mret false
  | Failed FileNotFoundError | Failed TimeoutExpired =>
      print (cross_mark ++ lit " " ++ description ++ lit " not found");;
      mret false
  | Failed e => throw e
  end.

Definition usb_keywords : list str :=
  [lit "cp210"; lit "esp32"; lit "serial"; lit "usb"; lit "uart"].

Definition is_potential (port : PortInfo) : bool :=
  existsb (fun keyword => str_in keyword (lower unicode_lower (description port)))
    usb_keywords.

Definition check_usb_devices (env : Env) : IO bool :=
  if can_import env (lit "serial.tools.list_ports") then
    let potential_devices := List.filter is_potential (comports env) in
    print (line_feed :: lit "USB Serial Devices Found:");;
    match potential_devices with
    | _ :: _ =>
        print_all ((fun port => lit "  " ++ device port ++ lit " - " ++ description port)
                     <$> potential_devices);;
        print (line_feed :: check_mark ++ lit " Found "
                 ++ lit (pretty (length potential_devices))
                 ++ lit " potential T-Deck device(s)");;
        if (2 <=? length potential_devices)%nat
        then print (lit "Ready for dual T-Deck testing!")
        else print (warning_sign ++ lit "  Need 2 T-Deck devices for full testing")
    | [] =>
        print (lit "  No USB serial devices found");;
        print (cross_mark ++ lit " No T-Deck devices detected")
    end;;
    mret (2 <=? length potential_devices)%nat
  else
    print (cross_mark ++ lit " Cannot check USB devices (pyserial not installed)");;
    mret false.

(** [checks_passed += 1] under [if ok] *)
Definition tally (ok : bool) (checks_passed : Z) : Z :=
  if ok then checks_passed + 1 else checks_passed.

Definition main (env : Env) : IO Z :=
  print (lit "T-DECK HARDWARE TEST DEPENDENCY CHECK");;
  print (repeat_str (lit "=") 40);;
  let checks_passed := 0 in
  let total_checks := 4 in
  print (line_feed :: lit "Python Dependencies:");;
  ok ← check_python_package env (lit "serial") (Some (lit "pip install pyserial"));
  let checks_passed := tally ok checks_passed in
  print (line_feed :: lit "System Commands:");;
  ok ← check_command env (lit "platformio") (lit "PlatformIO");
  let checks_passed := tally ok checks_passed in
  ok ← check_command env (lit "python3") (lit "Python 3");
  let checks_passed := tally ok checks_passed in
  print (line_feed :: lit "Hardware Detection:");;
  ok ← check_usb_devices env;
  let checks_passed := tally ok checks_passed in
  print (line_feed :: repeat_str (lit "=") 40);;
  print (lit "DEPENDENCY CHECK SUMMARY");;
  print (repeat_str (lit "=") 40);;
  print (lit "Checks passed: " ++ lit (pretty checks_passed) ++ lit "/"
           ++ lit (pretty total_checks));;
  if checks_passed =? total_checks then
    print (party_popper ++ lit " ALL DEPENDENCIES SATISFIED!");;
    print (lit "Ready to run: make test_hardware");;
    mret 0
  else
    print (cross_mark ++ lit " Some dependencies missing");;
    print (line_feed :: lit "Next steps:");;
    (if checks_passed <? 3
     then print (lit "1. Install missing software dependencies") else mret tt);;
    (if 3 <=? checks_passed
     then print (lit "1. Connect T-Deck devices via USB");;
          print (lit "2. Put devices in flashing mode (hold BOOT)")
     else mret tt);;
    print (lit "3. Run: make test_hardware");;
    mret 1.

(** What [main] sees of the machine: whether a version check passes,
    whether it ends in an exception [check_command] does not catch,
    whether the hardware check passes, and how many of the four do. *)
Definition command_ok (env : Env) (command : str) : bool :=
  match subprocess_run env [command; lit "--version"] with
  | Done result => returncode result =? 0
  | Failed _ => false
  end.

Definition command_raises (env : Env) (command : str) : option exn :=
  match subprocess_run env [command; lit "--version"] with
  | Done _ | Failed FileNotFoundError | Failed TimeoutExpired => None
  | Failed e => Some e
  end.

Definition usb_ok (env : Env) : bool :=
  can_import env (lit "serial.tools.list_ports") &&
  (2 <=? length (List.filter is_potential (comports env)))%nat.

(** The lines [main] ends with once [checks_passed] is known. *)
Definition summary_output (checks_passed : Z) : list io :=
  [Print (line_feed :: repeat_str (lit "=") 40);
   Print (lit "DEPENDENCY CHECK SUMMARY");
   Print (repeat_str (lit "=") 40);
   Print (lit "Checks passed: " ++ lit (pretty checks_passed) ++ lit "/"
            ++ lit (pretty 4))] ++
  (if checks_passed =? 4 then
     [Print (party_popper ++ lit " ALL DEPENDENCIES SATISFIED!");
      Print (lit "Ready to run: make test_hardware")]
   else
     [Print (cross_mark ++ lit " Some dependencies missing");
      Print (line_feed :: lit "Next steps:")] ++
     (if checks_passed <? 3
      then [Print (lit "1. Install missing software dependencies")] else []) ++
     (if 3 <=? checks_passed
      then [Print (lit "1. Connect T-Deck devices via USB");
            Print (lit "2. Put devices in flashing mode (hold BOOT)")]
      else []) ++
     [Print (lit "3. Run: make test_hardware")]).

Definition passed (env : Env) : Z :=
  tally (usb_ok env)
    (tally (command_ok env (lit "python3"))
       (tally (command_ok env (lit "platformio"))
          (tally (can_import env (lit "serial")) 0))).

End Defs.

End CheckHardwareDeps.

(** *** [flash_t_decks_helper.py] *)

Module FlashHelper.
Import Script.

Section Defs.

Variable unicode_lower : str -> code -> str -> str.

(** [repr] of a list of strings, as an f-string shows it. *)
Variable repr_list : list str -> str.

(** [any(kw in str(port.description).lower() for kw in [...])] *)
Definition matches (port : PortInfo) : bool :=
  existsb (fun kw => str_in kw (lower unicode_lower (description port)))
    [lit "cp210"; lit "esp32"; lit "serial"; lit "usb"].

Definition upload_command (port : str) : list str :=
  [lit "platformio"; lit "run"; lit "-e"; lit "t-deck-tft";
   lit "--target"; lit "upload"; lit "--upload-port"; port].

(** [for i, port in enumerate(t_deck_ports[:2])] *)
Fixpoint flash_each (env : Env) (i : nat) (ports : list str) : IO unit :=
  match ports with
  | [] => mret tt
  | port :: rest =>
      print (lit "Flashing T-Deck " ++ lit (pretty (S i)) ++ lit " on " ++ port
               ++ lit "...");;
      run (upload_command port) (Some (lit "meshtastic")) None;;
      match subprocess_run env (upload_command port) with
      | Done result =>
          (if returncode result =? 0
           then print (check_mark ++ lit " T-Deck " ++ lit (pretty (S i))
                         ++ lit " flashed successfully")
           else print (cross_mark ++ lit " T-Deck " ++ lit (pretty (S i))
                         ++ lit " flash failed"));;
          flash_each env (S i) rest
      | Failed e => throw e
      end
  end.

Definition main (env : Env) : IO unit :=
  let t_deck_ports := device <$> List.filter matches (comports env) in
  if (length t_deck_ports <? 2)%nat then
    print (cross_mark ++ lit " ERROR: Need 2 T-Decks, found "
             ++ lit (pretty (length t_deck_ports)));;
    print (lit "Make sure both devices are connected and in flashing mode");;
    throw (SystemExit 1)
  else
    print (lit "Found T-Deck ports: " ++ repr_list (take 2 t_deck_ports));;
    flash_each env 0 (take 2 t_deck_ports).

(** The module as run: the guarded import, then [main()]. *)
Definition script (env : Env) : IO unit :=
  if can_import env (lit "serial.tools.list_ports") then main env
  else
    print (cross_mark ++ lit " pyserial not installed. Run: pip install pyserial");;
    throw (SystemExit 1).

End Defs.

End FlashHelper.

(** ** The queue, device by device *)

(** The entries of the queue that bear the name [d], in arrival order. *)
Definition lines_of_device {Time} (d : str) (items : list (str * Time * str))
    : list (Time * str) :=
  omap (fun it : str * Time * str =>
          if decide (it.1.1 = d) then Some (it.1.2, it.2) else None) items.

(** ** More scenarios *)

(** A noisy log: five complaints among six lines. *)
Definition noisy_lines : list str :=
  [lit "ERROR: radio init"; lit "Retry failed"; lit "boot ok";
   lit "error 12"; lit "FAIL crc"; lit "Failure again"].

Definition noisy_logs : gmap str (list (Z * str)) :=
  <[lit "T-Deck-2" := timed 2 [secure_line]]>
    (<[lit "T-Deck-1" := timed 1 noisy_lines]> ∅).

(** The two monitors take turns; nothing fails to upload. *)
Definition chatty_items : list (str * Z * str) :=
  [(lit "T-Deck-1", 1, lit "boot");
   (lit "T-Deck-2", 2, lit "boot");
   (lit "T-Deck-1", 3, secure_line);
   (lit "T-Deck-2", 4, lit "mesh message sent")].

Definition chatty_world : World Z :=
  mkWorld sample_comports (fun _ => Ret 0) (Ret chatty_items).

(** The user interrupts the second upload. *)
Definition interrupted_world : World Z :=
  mkWorld sample_comports
    (fun port => if decide (port = lit "/dev/ttyACM0")
                 then Raise KeyboardInterrupt else Ret 0)
    (Ret []).

(** A workstation with everything installed and the sample ports. *)
Definition ready_env : Script.Env :=
  Script.mkEnv (fun _ => true) sample_comports
    (fun argv => Script.Done (Script.mkCompleted 0 (lit "  Version 6.1" ++ [line_feed]))).

(** The same, but [platformio] is not on the path. *)
Definition no_platformio_env : Script.Env :=
  Script.mkEnv (fun _ => true) sample_comports
    (fun argv => if decide (argv = [lit "platformio"; lit "--version"])
                 then Script.Failed Script.FileNotFoundError
                 else Script.Done (Script.mkCompleted 0 (lit "Python 3.11.4"))).

(** [platformio] is there but may not be executed. *)
Definition forbidden_env : Script.Env :=
  Script.mkEnv (fun _ => true) sample_comports
    (fun argv => if decide (argv = [lit "platformio"; lit "--version"])
                 then Script.Failed Script.OtherException
                 else Script.Done (Script.mkCompleted 0 (lit "Python 3.11.4"))).

(** Two adapters that only say "UART". *)
Definition uart_env : Script.Env :=
  Script.mkEnv (fun _ => true)
    [mkPort (lit "/dev/ttyS0") (lit "FT232R UART");
     mkPort (lit "/dev/ttyS1") (lit "CH340 UART")]
    (fun argv => Script.Done (Script.mkCompleted 0 (lit "1.0"))).

(** Every upload fails with exit status 1. *)
Definition failing_uploads_env : Script.Env :=
  Script.mkEnv (fun _ => true) sample_comports
    (fun argv => Script.Done (Script.mkCompleted 1 [])).

(** No [platformio] to run the uploads with. *)
Definition no_upload_tool_env : Script.Env :=
  Script.mkEnv (fun _ => true) sample_comports
    (fun argv => Script.Failed Script.FileNotFoundError).

(** A stand-in for [repr] of a list of strings. *)
Definition sample_repr_list (l : list str) : str :=
  lit "[" ++ join (lit ", ") l ++ lit "]".

(** * Properties *)

(** ** The patterns

    All eight pattern strings are within the syntax [re_compile] reads. *)
Lemma patterns_compile :
  re_compile (lit "Kyber.*initialized|KyberCryptoEngine.*created")
    = Some pattern_kyber_init /\
  re_compile (lit "Kyber keypair generated|generateKeyPair.*success")
    = Some pattern_key_generation /\
  re_compile (lit "Initiating Kyber key exchange|KYBER_MSG_KEY_EXCHANGE_REQUEST")
    = Some pattern_key_exchange_start /\
  re_compile (lit "Kyber.*chunk|KYBER_MSG_KEY_CHUNK")
    = Some pattern_key_chunk /\
  re_compile (lit "Kyber session established|quantum security.*active")
    = Some pattern_session_established /\
  re_compile (lit "quantum.{0,20}security.{0,20}(active|enabled)")
    = Some pattern_quantum_security /\
  re_compile (lit "packet.*received|packet.*sent|mesh.*message")
    = Some pattern_mesh_packet /\
  re_compile (lit "ERROR|FAIL|error|fail")
    = Some pattern_error.
Proof. repeat split; vm_compute; reflexivity. Qed.

(** How a small pattern reads. *)
Example re_compile_small :
  re_compile (lit "a.*|(b|c){0,1}") =
  Some (Alt (Cat (Chr 97) (Cat (Star Dot) Eps))
            (Cat (Bounded 0 1 (Alt (Cat (Chr 98) Eps) (Cat (Chr 99) Eps))) Eps)).
Proof. vm_compute. reflexivity. Qed.

(** Patterns outside the syntax are refused, not misread. *)
Example re_compile_refuses :
  re_compile (lit "a+") = None /\ re_compile (lit "(a") = None /\
  re_compile (lit "a**") = None /\ re_compile (lit "a{2}") = None.
Proof. repeat split; vm_compute; reflexivity. Qed.

(** The search on a few lines. *)
Example re_search_examples :
  re_search pattern_kyber_init (lit "[I] KyberCryptoEngine v2 created") = true /\
  re_search pattern_kyber_init (lit "[i] kybercryptoengine v2 created") = false /\
  re_search pattern_quantum_security (lit "quantum-safe security layer now enabled") = true /\
  re_search pattern_quantum_security
    (lit "quantum-safe security layer is not yet really enabled") = false /\
  re_search pattern_mesh_packet (lit "mesh: broadcast message queued") = true /\
  re_search pattern_error (lit "all good") = false /\
  re_search (compiled "a.b") (lit "a" ++ [line_feed] ++ lit "b") = false.
Proof. repeat split; vm_compute; reflexivity. Qed.

(** ** The matcher *)

Lemma contains_not_nullable c r : contains c r = true -> nullable r = false.
Proof.
  induction r as [| | d | | r1 IH1 r2 IH2 | r1 IH1 r2 IH2 | r1 IH1]; simpl; try done.
  - intros [H | H]%orb_true_iff; [rewrite (IH1 H) | rewrite (IH2 H)]; auto using andb_false_r.
  - intros [H1 H2]%andb_true_iff. by rewrite (IH1 H1), (IH2 H2).
Qed.

Lemma contains_deriv c d r :
  d <> c -> contains c r = true -> contains c (deriv d r) = true.
Proof.
  intros Hne.
  induction r as [| | e | | r1 IH1 r2 IH2 | r1 IH1 r2 IH2 | r1 IH1]; simpl; try done.
  - intros ->%N.eqb_eq. by rewrite (proj2 (N.eqb_neq d e) Hne).
  - intros [H | H]%orb_true_iff.
    + rewrite (contains_not_nullable _ _ H). simpl. by rewrite (IH1 H).
    + destruct (nullable r1); simpl; rewrite H, ?(IH2 H), ?orb_true_r; done.
  - intros [H1 H2]%andb_true_iff. by rewrite (IH1 H1), (IH2 H2).
Qed.

Lemma re_match_contains c r s :
  contains c r = true -> c ∉ s -> re_match r s = false.
Proof.
  revert r. induction s as [| d s IH]; intros r Hc Hs; simpl.
  - by rewrite (contains_not_nullable _ _ Hc).
  - rewrite (contains_not_nullable _ _ Hc). simpl.
    apply not_elem_of_cons in Hs as [Hne Hs].
    apply IH; [| done]. apply contains_deriv; [congruence | done].
Qed.

(** A pattern all of whose matches contain [c] is found in no string
    without [c]. *)
Lemma re_search_contains c r s :
  contains c r = true -> c ∉ s -> re_search r s = false.
Proof.
  intros Hc. induction s as [| d s IH]; intros Hs; simpl.
  - by rewrite (contains_not_nullable _ _ Hc).
  - pose proof (re_match_contains c r (d :: s) Hc Hs) as Hm.
    simpl in Hm. rewrite Hm. simpl.
    apply IH. by apply not_elem_of_cons in Hs as [_ Hs].
Qed.

(** The matcher against the language of a pattern. *)

Lemma nullable_lang r : nullable r = true <-> lang r [].
Proof.
  split.
  - induction r as [| | d | | r1 IH1 r2 IH2 | r1 IH1 r2 IH2 | r1 IH1]; simpl; try done.
    + intros _. constructor.
    + intros [H1 H2]%andb_true_iff.
      change (@nil N) with (@nil N ++ []). constructor; auto.
    + intros [H | H]%orb_true_iff; [apply lang_alt_l | apply lang_alt_r]; auto.
    + intros _. constructor.
  - intros H. remember [] as s eqn:Hs.
    induction H as [| | | r1 r2 s1 s2 H1 IH1 H2 IH2 | | | |]; simpl; try done.
    + apply app_eq_nil in Hs as [-> ->]. by rewrite IH1, IH2.
    + by rewrite IHlang.
    + rewrite IHlang; [apply orb_true_r | done].
Qed.

Lemma lang_deriv c r s : lang r (c :: s) -> lang (deriv c r) s.
Proof.
  intros H. remember (c :: s) as t eqn:Ht. revert s Ht.
  induction H as [| d | d Hd | r1 r2 s1 s2 H1 IH1 H2 IH2 | r1 r2 t H IH
                  | r1 r2 t H IH | r1 | r1 s1 s2 H1 IH1 H2 IH2];
    intros s Ht; simpl.
  - done.
  - injection Ht as -> <-. rewrite N.eqb_refl. constructor.
  - injection Ht as -> <-. rewrite (proj2 (N.eqb_neq c line_feed) Hd). constructor.
  - destruct s1 as [| e s1'].
    + simpl in Ht. rewrite (proj2 (nullable_lang r1) H1).
      apply lang_alt_r. auto.
    + injection Ht as -> <-.
      assert (lang (Cat (deriv c r1) r2) (s1' ++ s2)) by (constructor; auto).
      destruct (nullable r1); [by apply lang_alt_l | done].
  - apply lang_alt_l. auto.
  - apply lang_alt_r. auto.
  - done.
  - destruct s1 as [| e s1'].
    + simpl in Ht. apply IH2 in Ht. exact Ht.
    + injection Ht as -> <-. constructor; auto.
Qed.

Lemma deriv_lang c r s : lang (deriv c r) s -> lang r (c :: s).
Proof.
  revert s.
  induction r as [| | d | | r1 IH1 r2 IH2 | r1 IH1 r2 IH2 | r1 IH1];
    intros s H; simpl in H.
  - inversion H.
  - inversion H.
  - destruct (N.eqb_spec c d) as [-> |]; inversion H; subst. constructor.
  - destruct (N.eqb_spec c line_feed); inversion H; subst. by constructor.
  - assert (Hcat : forall t, lang (Cat (deriv c r1) r2) t -> lang (Cat r1 r2) (c :: t)).
    { intros t Ht. inversion Ht as [| | | ? ? s1 s2 H1 H2 | | | |]; subst.
      change (c :: s1 ++ s2) with ((c :: s1) ++ s2). constructor; auto. }
    destruct (nullable r1) eqn:Hn; [| by apply Hcat].
    inversion H; subst; [by apply Hcat |].
    change (c :: s) with ([] ++ c :: s). constructor; [by apply nullable_lang | auto].
  - inversion H; subst; [apply lang_alt_l | apply lang_alt_r]; auto.
  - inversion H as [| | | ? ? s1 s2 H1 H2 | | | |]; subst.
    change (c :: s1 ++ s2) with ((c :: s1) ++ s2). constructor; auto.
Qed.

(** [re_match]: some prefix of the string is in the language. *)
Lemma re_match_lang r s :
  re_match r s = true <-> exists s1 s2, s = s1 ++ s2 /\ lang r s1.
Proof.
  revert r. induction s as [| c s IH]; intros r; simpl.
  - rewrite orb_false_r, nullable_lang. split.
    + intros H. by exists [], [].
    + intros (s1 & s2 & Hs & H). symmetry in Hs.
      by apply app_eq_nil in Hs as [-> _].
  - rewrite orb_true_iff, nullable_lang, IH. split.
    + intros [H | (s1 & s2 & -> & H)].
      * by exists [], (c :: s).
      * exists (c :: s1), s2. split; [done | by apply deriv_lang].
    + intros (s1 & s2 & Hs & H). destruct s1 as [| d s1]; [by left |].
      injection Hs as <- ->. right. exists s1, s2. split; [done | by apply lang_deriv].
Qed.

(** [re_search]: some substring of the string is in the language. *)
Lemma re_search_lang r s :
  re_search r s = true <-> exists s0 s1 s2, s = s0 ++ s1 ++ s2 /\ lang r s1.
Proof.
  induction s as [| c s IH].
  - simpl. rewrite !orb_false_r, nullable_lang. split.
    + intros H. by exists [], [], [].
    + intros (s0 & s1 & s2 & Hs & H). symmetry in Hs.
      apply app_eq_nil in Hs as [_ Hs]. by apply app_eq_nil in Hs as [-> _].
  - change (re_search r (c :: s)) with (re_match r (c :: s) || re_search r s).
    rewrite orb_true_iff, re_match_lang, IH. split.
    + intros [(s1 & s2 & Hs & H) | (s0 & s1 & s2 & -> & H)].
      * by exists [], s1, s2.
      * by exists (c :: s0), s1, s2.
    + intros (s0 & s1 & s2 & Hs & H). destruct s0 as [| d s0].
      * left. by exists s1, s2.
      * injection Hs as <- ->. right. by exists s0, s1, s2.
Qed.

Section Properties.

Context {Time : Type}.
Variable unicode_lower : str -> code -> str -> str.

Implicit Types (d device_name : str) (r results : AnalysisResult).
Implicit Types (logs : list (Time * str)) (e : Time * str).
Implicit Types (device_logs : gmap str (list (Time * str))).

(** ** One line of a log *)

Ltac case_searches :=
  repeat match goal with
         | |- context [re_search ?p ?s] =>
             generalize (re_search p s); intros []
         end.

Lemma flag_of_analyze_line c d r e :
  flag_of c (analyze_line unicode_lower d r e) =
  if hit unicode_lower (flag_pattern c) e
  then <[d:=true]> (flag_of c r) else flag_of c r.
Proof.
  destruct e as [t line], c; unfold analyze_line, hit; cbn [snd flag_pattern];
    case_searches; reflexivity.
Qed.

Lemma count_of_analyze_line c d r e :
  count_of c (analyze_line unicode_lower d r e) =
  if hit unicode_lower (count_pattern c) e
  then incr d (count_of c r) else count_of c r.
Proof.
  destruct e as [t line], c; unfold analyze_line, hit; cbn [snd count_pattern];
    case_searches; reflexivity.
Qed.

Lemma flag_of_init_device c d r :
  flag_of c (init_device d r) = <[d:=false]> (flag_of c r).
Proof. by destruct c. Qed.

Lemma count_of_init_device c d r :
  count_of c (init_device d r) = <[d:=0]> (count_of c r).
Proof. by destruct c. Qed.

(** ** The lines of one device *)

Lemma analyze_lines_cons d e logs r :
  analyze_lines unicode_lower d (e :: logs) r =
  analyze_lines unicode_lower d logs (analyze_line unicode_lower d r e).
Proof. reflexivity. Qed.

Lemma analyze_lines_app d logs1 logs2 r :
  analyze_lines unicode_lower d (logs1 ++ logs2) r =
  analyze_lines unicode_lower d logs2 (analyze_lines unicode_lower d logs1 r).
Proof. unfold analyze_lines. apply foldl_app. Qed.

Lemma count_cons p e logs :
  count unicode_lower p (e :: logs) =
  (if hit unicode_lower p e then 1 else 0) + count unicode_lower p logs.
Proof.
  unfold count. simpl. destruct (hit unicode_lower p e); simpl length; lia.
Qed.

Lemma count_nonneg p logs : 0 <= count unicode_lower p logs.
Proof. unfold count. lia. Qed.

Lemma flag_of_analyze_lines c d logs r :
  flag_of c (analyze_lines unicode_lower d logs r) =
  if seen unicode_lower (flag_pattern c) logs
  then <[d:=true]> (flag_of c r) else flag_of c r.
Proof.
  revert r. induction logs as [| e logs IH]; intros r; [done |].
  rewrite analyze_lines_cons, IH, flag_of_analyze_line. simpl.
  destruct (hit unicode_lower (flag_pattern c) e); simpl; [| done].
  destruct (seen unicode_lower (flag_pattern c) logs); [| done].
  apply insert_insert_eq.
Qed.

Lemma count_of_analyze_lines c d logs r :
  count_of c (analyze_lines unicode_lower d logs r) =
  alter (fun n => n + count unicode_lower (count_pattern c) logs) d (count_of c r).
Proof.
  revert r. induction logs as [| e logs IH]; intros r.
  - symmetry. apply alter_id. intros n _. unfold count. simpl. lia.
  - rewrite analyze_lines_cons, IH, count_of_analyze_line, count_cons.
    destruct (hit unicode_lower (count_pattern c) e).
    + unfold incr. rewrite alter_alter_eq. apply alter_ext. intros n _. simpl. lia.
    + apply alter_ext. intros n _. lia.
Qed.

(** ** One device: defaults, then its lines *)

Lemma flag_of_analyze_device c r d logs :
  flag_of c (analyze_device unicode_lower r (d, logs)) =
  <[d := seen unicode_lower (flag_pattern c) logs]> (flag_of c r).
Proof.
  unfold analyze_device.
  rewrite flag_of_analyze_lines, flag_of_init_device.
  destruct (seen unicode_lower (flag_pattern c) logs); [| done].
  apply insert_insert_eq.
Qed.

Lemma count_of_analyze_device c r d logs :
  count_of c (analyze_device unicode_lower r (d, logs)) =
  <[d := count unicode_lower (count_pattern c) logs]> (count_of c r).
Proof.
  unfold analyze_device.
  rewrite count_of_analyze_lines, count_of_init_device, alter_insert_eq.
  f_equal.
Qed.

(** ** The whole mapping

    A category whose dictionary receives one entry per device ends up as
    the image of the input mapping. *)

Lemma foldl_analyze_device {V} (get : AnalysisResult -> gmap str V)
    (summary : list (Time * str) -> V) :
  (forall r d logs,
      get (analyze_device unicode_lower r (d, logs)) = <[d := summary logs]> (get r)) ->
  forall (items : list (str * list (Time * str))) r0,
    NoDup items.*1 ->
    get (foldl (analyze_device unicode_lower) r0 items) =
    (summary <$> (list_to_map items : gmap str (list (Time * str)))) ∪ get r0.
Proof.
  intros Hstep items. induction items as [| [d logs] items IH]; intros r0 Hnd.
  - simpl. by rewrite fmap_empty, (left_id_L ∅ (∪)).
  - apply NoDup_cons in Hnd as [Hd Hnd]. cbn [foldl fmap list_fmap fst].
    rewrite (IH _ Hnd), Hstep, list_to_map_cons, fmap_insert.
    rewrite <- insert_union_l. apply symmetry, insert_union_r.
    rewrite lookup_fmap. by rewrite (proj1 (not_elem_of_list_to_map _ _) Hd).
Qed.

Lemma flag_of_analyze_log_output c device_logs :
  flag_of c (analyze_log_output unicode_lower device_logs) =
  seen unicode_lower (flag_pattern c) <$> device_logs.
Proof.
  unfold analyze_log_output.
  rewrite (foldl_analyze_device (flag_of c) (seen unicode_lower (flag_pattern c))).
  - rewrite list_to_map_to_list.
    replace (flag_of c empty_results) with (∅ : gmap str bool) by (by destruct c).
    apply (right_id_L ∅ (∪)).
  - intros. apply flag_of_analyze_device.
  - apply NoDup_fst_map_to_list.
Qed.

Lemma count_of_analyze_log_output c device_logs :
  count_of c (analyze_log_output unicode_lower device_logs) =
  count unicode_lower (count_pattern c) <$> device_logs.
Proof.
  unfold analyze_log_output.
  rewrite (foldl_analyze_device (count_of c) (count unicode_lower (count_pattern c))).
  - rewrite list_to_map_to_list.
    replace (count_of c empty_results) with (∅ : gmap str Z) by (by destruct c).
    apply (right_id_L ∅ (∪)).
  - intros. apply count_of_analyze_device.
  - apply NoDup_fst_map_to_list.
Qed.

(** The result of [analyze_log_output], category by category. *)
Lemma analyze_log_output_eq device_logs :
  analyze_log_output unicode_lower device_logs =
  {| kyber_init := seen unicode_lower pattern_kyber_init <$> device_logs;
     key_generation := seen unicode_lower pattern_key_generation <$> device_logs;
     key_exchange_attempts := count unicode_lower pattern_key_exchange_start <$> device_logs;
     sessions_established := count unicode_lower pattern_session_established <$> device_logs;
     quantum_security_active := seen unicode_lower pattern_quantum_security <$> device_logs;
     mesh_packets := count unicode_lower pattern_mesh_packet <$> device_logs;
     errors := count unicode_lower pattern_error <$> device_logs |}.
Proof.
  pose proof (fun c => flag_of_analyze_log_output c device_logs) as Hf.
  pose proof (fun c => count_of_analyze_log_output c device_logs) as Hc.
  pose proof (Hf KyberInit) as H1. pose proof (Hf KeyGeneration) as H2.
  pose proof (Hf QuantumSecurityActive) as H3.
  pose proof (Hc KeyExchangeAttempts) as H4. pose proof (Hc SessionsEstablished) as H5.
  pose proof (Hc MeshPackets) as H6. pose proof (Hc Errors) as H7.
  simpl in H1, H2, H3, H4, H5, H6, H7.
  destruct (analyze_log_output unicode_lower device_logs); simpl in *.
  by rewrite H1, H2, H3, H4, H5, H6, H7.
Qed.

Lemma hit_snd p e : hit unicode_lower p e = re_search p (lower unicode_lower e.2).
Proof. reflexivity. Qed.

Lemma seen_false p logs :
  seen unicode_lower p logs = false <->
  forall e, e ∈ logs -> hit unicode_lower p e = false.
Proof.
  unfold seen. induction logs as [| e logs IH]; simpl.
  - split; [intros _ e He; by apply elem_of_nil in He | done].
  - rewrite orb_false_iff, IH. split.
    + intros [He Hl] e' [-> | H]%elem_of_cons; auto.
    + intros H. split; [apply H; left | intros e' He'; apply H; by right].
Qed.

Lemma count_zero p logs :
  (forall e, e ∈ logs -> hit unicode_lower p e = false) ->
  count unicode_lower p logs = 0.
Proof.
  induction logs as [| e logs IH]; intros H; [done |].
  rewrite count_cons, (H e), IH; [done | | left].
  intros e' He'. apply H. by right.
Qed.

(** The scan reads the text of the lines only. *)
Lemma seen_lines p logs :
  seen unicode_lower p logs =
  existsb (fun line => re_search p (lower unicode_lower line)) logs.*2.
Proof. unfold seen. induction logs as [| e logs IH]; simpl; by rewrite ?IH. Qed.

Lemma count_lines p logs :
  count unicode_lower p logs =
  Z.of_nat (length (List.filter
    (fun line => re_search p (lower unicode_lower line)) logs.*2)).
Proof.
  unfold count. f_equal. induction logs as [| e logs IH]; simpl; [done |].
  rewrite hit_snd. destruct (re_search p _); simpl; by rewrite IH.
Qed.

(** ** Lowercased text holds no ASCII capital *)

Section Lowercase.

Hypothesis unicode_lower_no_ascii_upper :
  forall pre c post x,
    is_ascii c = false -> x ∈ unicode_lower pre c post -> is_ascii_upper x = false.

Lemma lower_char_no_upper pre c post x :
  x ∈ lower_char unicode_lower pre c post -> is_ascii_upper x = false.
Proof.
  unfold lower_char. destruct (is_ascii_upper c) eqn:Hu.
  - intros ->%list_elem_of_singleton. unfold is_ascii_upper in *.
    apply andb_true_iff in Hu as [H1%N.leb_le H2%N.leb_le].
    apply andb_false_iff. right. apply N.leb_gt. lia.
  - destruct (is_ascii c) eqn:Ha; [| by apply unicode_lower_no_ascii_upper].
    by intros ->%list_elem_of_singleton.
Qed.

Lemma lower_from_no_upper pre s x :
  x ∈ lower_from unicode_lower pre s -> is_ascii_upper x = false.
Proof.
  revert pre. induction s as [| c s IH]; intros pre; simpl.
  - by intros ?%elem_of_nil.
  - intros [H | H]%elem_of_app; [by eapply lower_char_no_upper | by eapply IH].
Qed.

Lemma upper_not_in_lower c s :
  is_ascii_upper c = true -> c ∉ lower unicode_lower s.
Proof.
  intros Hc Hin. apply lower_from_no_upper in Hin. congruence.
Qed.

(** A pattern that needs an ASCII capital is found in no lowercased line. *)
Lemma hit_needs_upper c p e :
  is_ascii_upper c = true -> contains c p = true ->
  hit unicode_lower p e = false.
Proof.
  intros Hc Hp. unfold hit.
  apply (re_search_contains c); [done | by apply upper_not_in_lower].
Qed.

Lemma flag_pattern_never_hit c e :
  c <> QuantumSecurityActive -> hit unicode_lower (flag_pattern c) e = false.
Proof.
  intros Hc. apply (hit_needs_upper capital_K); [done |].
  destruct c; [reflexivity | reflexivity | done].
Qed.

Lemma key_exchange_start_never_hit e :
  hit unicode_lower pattern_key_exchange_start e = false.
Proof. by apply (hit_needs_upper capital_K). Qed.

End Lowercase.

(** ** [all] and [sum] over the values of a dictionary *)

Lemma elem_of_values {V} (m : gmap str V) (v : V) :
  v ∈ values m <-> exists d, m !! d = Some v.
Proof.
  unfold values. rewrite list_elem_of_fmap. split.
  - intros ([d v'] & -> & H%elem_of_map_to_list). by exists d.
  - intros (d & H). exists (d, v). by rewrite elem_of_map_to_list.
Qed.

Lemma py_all_true l : py_all l = true <-> forall b, b ∈ l -> b = true.
Proof.
  unfold py_all. rewrite forallb_forall. split.
  - intros H b Hb. apply (H b). by apply list_elem_of_In.
  - intros H b Hb. apply (H b). by apply list_elem_of_In.
Qed.

Lemma py_all_values (m : gmap str bool) :
  py_all (values m) = true <-> forall d b, m !! d = Some b -> b = true.
Proof.
  rewrite py_all_true. split.
  - intros H d b Hd. apply H, elem_of_values. by exists d.
  - intros H b (d & Hd)%elem_of_values. by apply (H d).
Qed.

Lemma py_all_values_fmap {V} (f : V -> bool) (m : gmap str V) :
  py_all (f <$> values m) = true <-> forall d v, m !! d = Some v -> f v = true.
Proof.
  rewrite py_all_true. split.
  - intros H d v Hd. apply H, list_elem_of_fmap. exists v.
    split; [done |]. apply elem_of_values. by exists d.
  - intros H b (v & -> & (d & Hd)%elem_of_values)%list_elem_of_fmap. by apply (H d).
Qed.

Lemma py_sum_zero l : (forall n, n ∈ l -> n = 0) -> py_sum l = 0.
Proof.
  induction l as [| n l IH]; intros H; simpl; [done |].
  rewrite (H n), IH; [done | | left]. intros n' Hn'. apply H. by right.
Qed.

(** ** The sum over a dictionary *)

Lemma py_sum_permutation l1 l2 : l1 ≡ₚ l2 -> py_sum l1 = py_sum l2.
Proof.
  induction 1 as [| n l1 l2 _ IH | n1 n2 l | l1 l2 l3 _ IH1 _ IH2]; simpl.
  - done.
  - by rewrite IH.
  - lia.
  - by rewrite IH1.
Qed.

Lemma py_sum_values_insert (m : gmap str Z) d n :
  m !! d = None -> py_sum (values (<[d:=n]> m)) = n + py_sum (values m).
Proof.
  intros Hd. unfold values.
  rewrite (py_sum_permutation _ ((d, n) :: map_to_list m).*2); [done |].
  apply fmap_Permutation. by apply map_to_list_insert.
Qed.

Lemma py_sum_values_empty : py_sum (values (∅ : gmap str Z)) = 0.
Proof. unfold values. by rewrite map_to_list_empty. Qed.

(** [sum(d.values())] is the sum of the dictionary, and nothing else is. *)
Lemma sums_to_py_sum (m : gmap str Z) : sums_to m (py_sum (values m)).
Proof.
  induction m as [| d n m Hd IH] using map_ind.
  - rewrite py_sum_values_empty. constructor.
  - rewrite py_sum_values_insert by done. by constructor.
Qed.

Lemma sums_to_unique (m : gmap str Z) total :
  sums_to m total -> total = py_sum (values m).
Proof.
  induction 1 as [| d n m total Hd _ IH].
  - by rewrite py_sum_values_empty.
  - rewrite py_sum_values_insert by done. by rewrite IH.
Qed.

(** ** The verdict *)

(** (C3) The verdict is true exactly when the four criteria hold: init
    detected for every device, keygen detected for every device, the
    sum of the key-exchange-attempt counts above 0, every error count
    below 5; and one criterion being false makes the verdict false
    whatever the other three are.  The sum is the sum over the devices
    of the dictionary: 0 for no device, and one device more adds its
    count. *)
Theorem verdict_iff_four_criteria (analysis : AnalysisResult) :
  (both_init (success_criteria analysis) = true <->
     forall d b, kyber_init analysis !! d = Some b -> b = true) /\
  (both_keygen (success_criteria analysis) = true <->
     forall d b, key_generation analysis !! d = Some b -> b = true) /\
  (key_exchanges (success_criteria analysis) = true <->
     0 < py_sum (values (key_exchange_attempts analysis))) /\
  (key_exchanges (success_criteria analysis) = true <->
     exists total, sums_to (key_exchange_attempts analysis) total /\ 0 < total) /\
  (low_errors (success_criteria analysis) = true <->
     forall d n, errors analysis !! d = Some n -> n < 5) /\
  (verdict analysis = true <->
     both_init (success_criteria analysis) = true /\
     both_keygen (success_criteria analysis) = true /\
     key_exchanges (success_criteria analysis) = true /\
     low_errors (success_criteria analysis) = true) /\
  (forall c : SuccessCriteria,
     both_init c = false \/ both_keygen c = false \/
     key_exchanges c = false \/ low_errors c = false ->
     overall_success c = false) /\
  py_sum (values (∅ : gmap str Z)) = 0 /\
  (forall (m : gmap str Z) d n,
     m !! d = None -> py_sum (values (<[d:=n]> m)) = n + py_sum (values m)).
Proof.
  split; [exact (py_all_values (kyber_init analysis)) |].
  split; [exact (py_all_values (key_generation analysis)) |].
  split; [apply Z.ltb_lt |].
  split.
  { change (key_exchanges (success_criteria analysis))
      with (0 <? py_sum (values (key_exchange_attempts analysis))).
    rewrite Z.ltb_lt. split.
    - intros H. exists (py_sum (values (key_exchange_attempts analysis))).
      split; [apply sums_to_py_sum | done].
    - intros (total & Hsum & Hpos). by rewrite <- (sums_to_unique _ _ Hsum). }
  split.
  { simpl. rewrite py_all_values_fmap.
    split; intros H d n Hd; apply Z.ltb_lt, (H d), Hd. }
  split.
  { unfold verdict, overall_success, py_all. cbn [forallb id].
    destruct (both_init (success_criteria analysis)),
      (both_keygen (success_criteria analysis)),
      (key_exchanges (success_criteria analysis)),
      (low_errors (success_criteria analysis)); simpl; intuition discriminate. }
  split.
  { intros c H. unfold overall_success, py_all. cbn [forallb id].
    destruct (both_init c), (both_keygen c), (key_exchanges c), (low_errors c);
      simpl; intuition discriminate. }
  split; [apply py_sum_values_empty | apply py_sum_values_insert].
Qed.

(** ** The analysis result *)

(** (C5) Every device of the input mapping, also one with an empty log,
    has an entry under each of the seven categories; a category none of
    whose lines matched holds the default, false or 0. *)
Theorem categories_present_with_defaults device_logs d logs :
  device_logs !! d = Some logs ->
  (forall c : flag_category,
      is_Some (flag_of c (analyze_log_output unicode_lower device_logs) !! d)) /\
  (forall c : count_category,
      is_Some (count_of c (analyze_log_output unicode_lower device_logs) !! d)) /\
  (forall c : flag_category,
      (forall e, e ∈ logs -> hit unicode_lower (flag_pattern c) e = false) ->
      flag_of c (analyze_log_output unicode_lower device_logs) !! d = Some false) /\
  (forall c : count_category,
      (forall e, e ∈ logs -> hit unicode_lower (count_pattern c) e = false) ->
      count_of c (analyze_log_output unicode_lower device_logs) !! d = Some 0) /\
  (logs = [] ->
   forall (fc : flag_category) (cc : count_category),
     flag_of fc (analyze_log_output unicode_lower device_logs) !! d = Some false /\
     count_of cc (analyze_log_output unicode_lower device_logs) !! d = Some 0).
Proof.
  intros Hd.
  assert (Hf : forall c, flag_of c (analyze_log_output unicode_lower device_logs) !! d
                         = Some (seen unicode_lower (flag_pattern c) logs)).
  { intros c. by rewrite flag_of_analyze_log_output, lookup_fmap, Hd. }
  assert (Hc : forall c, count_of c (analyze_log_output unicode_lower device_logs) !! d
                         = Some (count unicode_lower (count_pattern c) logs)).
  { intros c. by rewrite count_of_analyze_log_output, lookup_fmap, Hd. }
  split; [intros c; by rewrite Hf |].
  split; [intros c; by rewrite Hc |].
  split; [intros c H; by rewrite Hf, (proj2 (seen_false _ _) H) |].
  split; [intros c H; by rewrite Hc, (count_zero _ _ H) |].
  intros -> fc cc. by rewrite Hf, Hc.
Qed.

(** (C6) While the lines of a device are scanned, a boolean category that
    is true after some prefix of the log stays true after any further
    lines. *)
Theorem flag_stays_true (c : flag_category) d (pre post : list (Time * str)) r :
  flag_of c (analyze_lines unicode_lower d pre r) !! d = Some true ->
  flag_of c (analyze_lines unicode_lower d (pre ++ post) r) !! d = Some true.
Proof.
  intros H. rewrite analyze_lines_app, flag_of_analyze_lines.
  destruct (seen unicode_lower (flag_pattern c) post); [| done].
  apply lookup_insert_eq.
Qed.

(** The same on whole results: a longer log of a device cannot turn a
    boolean category of that device back to false. *)
Lemma longer_log_keeps_flag (c : flag_category) device_logs d pre post :
  flag_of c (analyze_log_output unicode_lower (<[d:=pre]> device_logs)) !! d = Some true ->
  flag_of c (analyze_log_output unicode_lower (<[d:=pre ++ post]> device_logs)) !! d
  = Some true.
Proof.
  rewrite !flag_of_analyze_log_output, !lookup_fmap, !lookup_insert_eq. simpl.
  intros [= H]. f_equal. unfold seen in *. rewrite existsb_app, H. done.
Qed.

(** (C10) The analysis does not read the timestamps: two mappings with
    the same devices and, per device, the same line texts in the same
    order give the same result. *)
Theorem analysis_ignores_timestamps
    (device_logs1 device_logs2 : gmap str (list (Time * str))) :
  ((fun logs : list (Time * str) => logs.*2) <$> device_logs1) =
  ((fun logs : list (Time * str) => logs.*2) <$> device_logs2) ->
  analyze_log_output unicode_lower device_logs1 =
  analyze_log_output unicode_lower device_logs2.
Proof.
  intros Heq.
  assert (Hk : forall k, (fun logs : list (Time * str) => logs.*2) <$> device_logs1 !! k
                         = (fun logs : list (Time * str) => logs.*2) <$> device_logs2 !! k).
  { intros k. by rewrite <- !lookup_fmap, Heq. }
  assert (Hs : forall p, seen unicode_lower p <$> device_logs1
                         = seen unicode_lower p <$> device_logs2).
  { intros p. apply map_eq. intros k. rewrite !lookup_fmap. specialize (Hk k).
    destruct (device_logs1 !! k), (device_logs2 !! k); simplify_eq/=; [| done].
    f_equal. rewrite !seen_lines. congruence. }
  assert (Hc : forall p, count unicode_lower p <$> device_logs1
                         = count unicode_lower p <$> device_logs2).
  { intros p. apply map_eq. intros k. rewrite !lookup_fmap. specialize (Hk k).
    destruct (device_logs1 !! k), (device_logs2 !! k); simplify_eq/=; [| done].
    f_equal. rewrite !count_lines. congruence. }
  rewrite !analyze_log_output_eq. by rewrite !Hs, !Hc.
Qed.

(** ** What the lowercased scan can never find *)

Lemma start_monitors_eq i ports :
  start_monitors i ports =
  (imap (fun j port => EvMonitor port (device_name_of (i + j)) 90) ports, Ret tt).
Proof.
  revert i. induction ports as [| port rest IH]; intros i; [done |].
  cbn [start_monitors]. rewrite IH. unfold emit, mbind, M_bind. cbn [app].
  rewrite imap_cons, Nat.add_0_r. do 2 f_equal.
  apply imap_ext. intros j x _. simpl. do 2 f_equal. lia.
Qed.

(** [test_mesh_communication]: a monitor per port, then the verdict on
    what was collected. *)
Lemma test_mesh_communication_eq (w : World Time) ports :
  test_mesh_communication unicode_lower w ports =
  (imap (fun j port => EvMonitor port (device_name_of j) 90) ports,
   match output_queue w with
   | Raise e => Raise e
   | Ret items =>
       match collect items initial_device_logs with
       | Raise e => Raise e
       | Ret device_logs => Ret (verdict (analyze_log_output unicode_lower device_logs))
       end
   end).
Proof.
  unfold test_mesh_communication. rewrite start_monitors_eq.
  unfold mbind, M_bind, throw, mret, M_ret, verdict. simpl.
  destruct (output_queue w) as [items | exc]; [| by rewrite app_nil_r].
  destruct (collect items initial_device_logs); by rewrite app_nil_r.
Qed.

(** Collecting keeps the keys of [device_logs]. *)
Lemma collect_keeps_key items device_logs device_logs' k :
  collect items device_logs = Ret device_logs' ->
  is_Some (device_logs !! k) -> is_Some (device_logs' !! k).
Proof.
  revert device_logs. induction items as [| [[name t] line] items IH];
    intros device_logs; simpl.
  - by intros [= ->].
  - destruct (device_logs !! name) as [logs |] eqn:Hn; [| done].
    intros H Hk. apply (IH _ H). rewrite lookup_insert.
    case_decide; [done | exact Hk].
Qed.

(** Items that bear the names of the two monitors are all collected. *)
Lemma collect_returns items device_logs :
  (forall it, it ∈ items -> is_Some (device_logs !! it.1.1)) ->
  exists device_logs', collect items device_logs = Ret device_logs'.
Proof.
  revert device_logs. induction items as [| [[name t] line] items IH];
    intros device_logs H; simpl.
  - by eexists.
  - destruct (H (name, t, line)) as [logs Hl]; [left |]. simpl in Hl. rewrite Hl.
    apply IH. intros it Hit. rewrite lookup_insert. case_decide; [done |].
    apply H. by right.
Qed.

Section NeverDetected.

Hypothesis unicode_lower_no_ascii_upper :
  forall pre c post x,
    is_ascii c = false -> x ∈ unicode_lower pre c post -> is_ascii_upper x = false.

Lemma seen_needs_upper (c : flag_category) logs :
  c <> QuantumSecurityActive -> seen unicode_lower (flag_pattern c) logs = false.
Proof.
  intros Hc. apply seen_false. intros e _.
  by apply flag_pattern_never_hit.
Qed.

Lemma count_key_exchange_start logs :
  count unicode_lower pattern_key_exchange_start logs = 0.
Proof.
  apply count_zero. intros e _. by apply key_exchange_start_never_hit.
Qed.

(** No mapping at all gets a true verdict: the attempts always sum to 0. *)
Lemma key_exchanges_never_true device_logs :
  key_exchanges (success_criteria (analyze_log_output unicode_lower device_logs)) = false.
Proof.
  simpl. rewrite py_sum_zero; [done |].
  intros n (d & Hd)%elem_of_values.
  rewrite (count_of_analyze_log_output KeyExchangeAttempts), lookup_fmap in Hd.
  destruct (device_logs !! d); simplify_eq/=. apply count_key_exchange_start.
Qed.

Lemma verdict_never_true device_logs :
  verdict (analyze_log_output unicode_lower device_logs) = false.
Proof.
  unfold verdict, overall_success, py_all. cbn [forallb id].
  rewrite key_exchanges_never_true.
  by destruct (both_init _), (both_keygen _).
Qed.

(** With a device in the mapping, the init criterion fails as well. *)
Lemma both_init_never_true device_logs d :
  is_Some (device_logs !! d) ->
  both_init (success_criteria (analyze_log_output unicode_lower device_logs)) = false.
Proof.
  intros [logs Hd]. simpl.
  destruct (py_all _) eqn:Hall; [| done].
  rewrite py_all_values in Hall. symmetry. apply (Hall d).
  rewrite (flag_of_analyze_log_output KyberInit), lookup_fmap, Hd. simpl.
  by rewrite (seen_needs_upper KyberInit).
Qed.

(** (C2) Whatever the logs are, no device is ever reported as
    initialised or as having generated keys, and its key-exchange-attempt
    count is 0: the lines are lowercased before the search while each of
    the three patterns asks for a capital letter.  So the init criterion
    and the verdict are false, and [test_mesh_communication] never
    returns true. *)
Theorem kyber_categories_never_detected device_logs d :
  is_Some (device_logs !! d) ->
  kyber_init (analyze_log_output unicode_lower device_logs) !! d = Some false /\
  key_generation (analyze_log_output unicode_lower device_logs) !! d = Some false /\
  key_exchange_attempts (analyze_log_output unicode_lower device_logs) !! d = Some 0 /\
  both_init (success_criteria (analyze_log_output unicode_lower device_logs)) = false /\
  verdict (analyze_log_output unicode_lower device_logs) = false /\
  (forall (w : World Time) ports,
      result (test_mesh_communication unicode_lower w ports) = Ret false \/
      exists exc : exn, result (test_mesh_communication unicode_lower w ports) = Raise exc).
Proof.
  intros [logs Hd].
  split; [| split; [| split; [| split; [| split]]]].
  - rewrite (flag_of_analyze_log_output KyberInit), lookup_fmap, Hd. simpl.
    by rewrite (seen_needs_upper KyberInit).
  - rewrite (flag_of_analyze_log_output KeyGeneration), lookup_fmap, Hd. simpl.
    by rewrite (seen_needs_upper KeyGeneration).
  - rewrite (count_of_analyze_log_output KeyExchangeAttempts), lookup_fmap, Hd. simpl.
    by rewrite count_key_exchange_start.
  - by apply (both_init_never_true _ d).
  - apply verdict_never_true.
  - intros w ports. rewrite test_mesh_communication_eq. unfold result. simpl.
    destruct (output_queue w) as [items | exc]; [| by right; eexists].
    destruct (collect items initial_device_logs); [left | by right; eexists].
    by rewrite verdict_never_true.
Qed.

(** When the queue holds only lines of the two monitors, the test does
    return, and it returns false. *)
Lemma test_mesh_communication_returns_false (w : World Time) ports items :
  output_queue w = Ret items ->
  (forall it, it ∈ items -> it.1.1 = lit "T-Deck-1" \/ it.1.1 = lit "T-Deck-2") ->
  result (test_mesh_communication unicode_lower w ports) = Ret false.
Proof.
  intros Hq Hnames. rewrite test_mesh_communication_eq, Hq. unfold result. simpl.
  destruct (collect_returns items initial_device_logs) as [dl Hdl].
  - intros it Hit. destruct (Hnames it Hit) as [-> | ->]; by eexists.
  - by rewrite Hdl, verdict_never_true.
Qed.

End NeverDetected.

(** ** The handshake scenario *)

(** (C1) Run on the two logs of the handshake scenario, the analysis
    reports neither init nor keygen for either device and no exchange
    attempt at all, and the verdict is false, although each of the three
    lines as printed is matched by its pattern: the scan lowercases the
    line first.  The error counts are 0, as expected. *)
Theorem handshake_scenario_not_detected (t : Time) :
  re_search pattern_kyber_init (lit "KyberCryptoEngine created") = true /\
  re_search pattern_key_generation (lit "Kyber keypair generated") = true /\
  re_search pattern_key_exchange_start (lit "KYBER_MSG_KEY_EXCHANGE_REQUEST sent") = true /\
  kyber_init (analyze_log_output unicode_lower (handshake_logs t)) !! lit "T-Deck-1"
    = Some false /\
  kyber_init (analyze_log_output unicode_lower (handshake_logs t)) !! lit "T-Deck-2"
    = Some false /\
  key_generation (analyze_log_output unicode_lower (handshake_logs t)) !! lit "T-Deck-1"
    = Some false /\
  key_generation (analyze_log_output unicode_lower (handshake_logs t)) !! lit "T-Deck-2"
    = Some false /\
  py_sum (values (key_exchange_attempts
                    (analyze_log_output unicode_lower (handshake_logs t)))) = 0 /\
  errors (analyze_log_output unicode_lower (handshake_logs t)) !! lit "T-Deck-1"
    = Some 0 /\
  errors (analyze_log_output unicode_lower (handshake_logs t)) !! lit "T-Deck-2"
    = Some 0 /\
  verdict (analyze_log_output unicode_lower (handshake_logs t)) = false.
Proof. repeat split; vm_compute; reflexivity. Qed.

(** (C7) A key-exchange request line that also says "error" is matched
    by both patterns as printed, yet scanning it leaves the
    key-exchange-attempt count as it was and adds one to the error count
    only: the exchange pattern is searched in the lowercased line. *)
Theorem exchange_error_line_counts_error_only d (t : Time) r :
  re_search pattern_key_exchange_start exchange_error_line = true /\
  re_search pattern_error exchange_error_line = true /\
  key_exchange_attempts (analyze_line unicode_lower d r (t, exchange_error_line))
    = key_exchange_attempts r /\
  errors (analyze_line unicode_lower d r (t, exchange_error_line))
    = incr d (errors r) /\
  key_exchange_attempts
    (analyze_log_output unicode_lower {[ d := [(t, exchange_error_line)] ]}) !! d
    = Some 0 /\
  errors
    (analyze_log_output unicode_lower {[ d := [(t, exchange_error_line)] ]}) !! d
    = Some 1.
Proof.
  assert (Hk : hit unicode_lower pattern_key_exchange_start (t, exchange_error_line) = false)
    by (vm_compute; reflexivity).
  assert (He : hit unicode_lower pattern_error (t, exchange_error_line) = true)
    by (vm_compute; reflexivity).
  split; [vm_compute; reflexivity |].
  split; [vm_compute; reflexivity |].
  split.
  { pose proof (count_of_analyze_line KeyExchangeAttempts d r (t, exchange_error_line)) as H.
    cbn [count_pattern] in H. by rewrite Hk in H. }
  split.
  { pose proof (count_of_analyze_line Errors d r (t, exchange_error_line)) as H.
    cbn [count_pattern] in H. by rewrite He in H. }
  split.
  - rewrite (count_of_analyze_log_output KeyExchangeAttempts), lookup_fmap,
      lookup_singleton_eq.
    cbn [count_pattern fmap option_fmap option_map]. by rewrite count_cons, Hk.
  - rewrite (count_of_analyze_log_output Errors), lookup_fmap, lookup_singleton_eq.
    cbn [count_pattern fmap option_fmap option_map]. by rewrite count_cons, He.
Qed.

(** What does hold line by line: each counting category moves by one on
    a hit of its own pattern and not at all otherwise, whatever the other
    patterns do. *)
Lemma analyze_line_counts_independently (c : count_category) d r e n :
  count_of c r !! d = Some n ->
  count_of c (analyze_line unicode_lower d r e) !! d =
  Some (if hit unicode_lower (count_pattern c) e then n + 1 else n).
Proof.
  intros Hn. rewrite count_of_analyze_line.
  destruct (hit unicode_lower (count_pattern c) e); [| done].
  unfold incr. by rewrite lookup_alter_eq, Hn.
Qed.

(** ** Discovery *)

Lemma filter_first {A} (f : A -> bool) (l : list A) :
  List.filter f l <> [] ->
  exists pre a post,
    l = pre ++ a :: post /\ Forall (fun x => f x = false) pre /\ f a = true.
Proof.
  induction l as [| x l IH]; simpl; [done |].
  destruct (f x) eqn:Hx.
  - intros _. by exists [], x, l.
  - intros (pre & a & post & -> & Hpre & Ha)%IH.
    exists (x :: pre), a, post. split; [done |]. split; [by constructor | done].
Qed.

Lemma filter_none {A} (f : A -> bool) (l : list A) :
  Forall (fun x => f x = false) l -> List.filter f l = [].
Proof. induction 1 as [| x l Hx _ IH]; simpl; [done |]. by rewrite Hx. Qed.

(** The first two elements that pass a filter, where they stand. *)
Lemma filter_first_two {A} (f : A -> bool) (l : list A) :
  (2 <= length (List.filter f l))%nat ->
  exists pre a mid b post,
    l = pre ++ a :: mid ++ b :: post /\
    Forall (fun x => f x = false) pre /\ f a = true /\
    Forall (fun x => f x = false) mid /\ f b = true.
Proof.
  intros Hlen.
  destruct (filter_first f l) as (pre & a & rest & -> & Hpre & Ha).
  { intros Heq. rewrite Heq in Hlen. simpl in Hlen. lia. }
  rewrite List.filter_app, (filter_none f pre Hpre) in Hlen. simpl in Hlen.
  rewrite Ha in Hlen. simpl in Hlen.
  destruct (filter_first f rest) as (mid & b & post & -> & Hmid & Hb).
  { intros Heq. rewrite Heq in Hlen. simpl in Hlen. lia. }
  by exists pre, a, mid, b, post.
Qed.

Lemma find_t_deck_devices_length ports :
  (length (find_t_deck_devices unicode_lower ports) <= 2)%nat.
Proof.
  unfold find_t_deck_devices.
  destruct (length _ <? 2)%nat; simpl; [lia |]. rewrite length_take. lia.
Qed.

Lemma run_tests_too_few (w : World Time) :
  (length (find_t_deck_devices unicode_lower (comports w)) < 2)%nat ->
  run_tests unicode_lower w = ([], Ret false).
Proof.
  intros H. unfold run_tests. by rewrite (proj2 (Nat.ltb_lt _ _) H).
Qed.

(** (C9) Discovery returns at most two devices.  With two or more
    matching endpoints it returns the first two of them in enumeration
    order.  With fewer than two it returns none, and the run then ends
    at once: nothing is flashed, nothing monitored, no report written,
    and the process exits with 1. *)
Theorem discovery_first_two_or_nothing (w : World Time) :
  (length (find_t_deck_devices unicode_lower (comports w)) <= 2)%nat /\
  ((2 <= length (List.filter (is_candidate unicode_lower) (comports w)))%nat ->
   exists pre a mid b post,
     comports w = pre ++ a :: mid ++ b :: post /\
     Forall (fun port => is_candidate unicode_lower port = false) pre /\
     is_candidate unicode_lower a = true /\
     Forall (fun port => is_candidate unicode_lower port = false) mid /\
     is_candidate unicode_lower b = true /\
     find_t_deck_devices unicode_lower (comports w) = [device a; device b]) /\
  ((length (List.filter (is_candidate unicode_lower) (comports w)) < 2)%nat ->
   find_t_deck_devices unicode_lower (comports w) = [] /\
   run_tests unicode_lower w = ([], Ret false) /\
   forall args, main unicode_lower args w = ([], 1)).
Proof.
  split; [apply find_t_deck_devices_length |]. split.
  - intros Hlen.
    destruct (filter_first_two _ _ Hlen) as (pre & a & mid & b & post & Hw & Hpre & Ha & Hmid & Hb).
    exists pre, a, mid, b, post. repeat (split; [done |]).
    unfold find_t_deck_devices, t_deck_ports. rewrite length_fmap.
    rewrite (proj2 (Nat.ltb_ge _ _) Hlen), Hw.
    rewrite List.filter_app, (filter_none _ pre Hpre). simpl. rewrite Ha.
    rewrite List.filter_app, (filter_none _ mid Hmid). simpl. by rewrite Hb.
  - intros Hlen.
    assert (Hnone : find_t_deck_devices unicode_lower (comports w) = []).
    { unfold find_t_deck_devices, t_deck_ports. rewrite length_fmap.
      by rewrite (proj2 (Nat.ltb_lt _ _) Hlen). }
    assert (Hrun : run_tests unicode_lower w = ([], Ret false)).
    { apply run_tests_too_few. rewrite Hnone. simpl. lia. }
    split; [done |]. split; [done |].
    intros args. unfold main. by rewrite Hrun.
Qed.

(** ** Flashing and the overall result *)

Lemma flash_firmware_eq (w : World Time) port name :
  subprocess_run w port <> Raise KeyboardInterrupt ->
  flash_firmware w port name =
  ([EvFlash port name 300], Ret (exit_ok (subprocess_run w port))).
Proof.
  intros Hint. unfold flash_firmware, emit, mbind, M_bind, mret, M_ret, throw.
  by destruct (subprocess_run w port) as [rc | []].
Qed.

Lemma flash_firmware_interrupted (w : World Time) port name :
  subprocess_run w port = Raise KeyboardInterrupt ->
  flash_firmware w port name = ([EvFlash port name 300], Raise KeyboardInterrupt).
Proof.
  intros Hint. unfold flash_firmware, emit, mbind, M_bind, throw. by rewrite Hint.
Qed.

Lemma exit_ok_true o : exit_ok o = true <-> o = Ret 0.
Proof.
  destruct o as [rc | exc]; simpl; [| done].
  rewrite Z.eqb_eq. split; [by intros -> | by intros [= ->]].
Qed.

Lemma flash_loop_two (w : World Time) p1 p2 :
  subprocess_run w p1 <> Raise KeyboardInterrupt ->
  subprocess_run w p2 <> Raise KeyboardInterrupt ->
  flash_loop w 0 [p1; p2] ∅ =
  (flash_events p1 (lit "T-Deck-1") (exit_ok (subprocess_run w p1)) ++
   flash_events p2 (lit "T-Deck-2") (exit_ok (subprocess_run w p2)),
   Ret (<[lit "T-Deck-2" := exit_ok (subprocess_run w p2)]>
          (<[lit "T-Deck-1" := exit_ok (subprocess_run w p1)]> ∅))).
Proof.
  intros H1 H2. cbn [flash_loop].
  rewrite (flash_firmware_eq w p1 _ H1), (flash_firmware_eq w p2 _ H2).
  unfold flash_events.
  by destruct (exit_ok (subprocess_run w p1)), (exit_ok (subprocess_run w p2)).
Qed.

Lemma py_all_two_devices (s1 s2 : bool) :
  py_all (values (<[lit "T-Deck-2" := s2]> (<[lit "T-Deck-1" := s1]> ∅))) = s1 && s2.
Proof. by destruct s1, s2; vm_compute. Qed.

(** A run with two devices, event by event. *)
Lemma run_tests_two (w : World Time) p1 p2 :
  find_t_deck_devices unicode_lower (comports w) = [p1; p2] ->
  subprocess_run w p1 <> Raise KeyboardInterrupt ->
  subprocess_run w p2 <> Raise KeyboardInterrupt ->
  run_tests unicode_lower w =
  (flash_events p1 (lit "T-Deck-1") (exit_ok (subprocess_run w p1)) ++
   flash_events p2 (lit "T-Deck-2") (exit_ok (subprocess_run w p2)) ++
   [EvMonitor p1 (lit "T-Deck-1") 90; EvMonitor p2 (lit "T-Deck-2") 90] ++
   match result (test_mesh_communication unicode_lower w [p1; p2]) with
   | Ret mesh =>
       [EvWriteReport report_file
          (exit_ok (subprocess_run w p1) && exit_ok (subprocess_run w p2) && mesh)]
   | Raise _ => []
   end,
   match result (test_mesh_communication unicode_lower w [p1; p2]) with
   | Ret mesh =>
       Ret (exit_ok (subprocess_run w p1) && exit_ok (subprocess_run w p2) && mesh)
   | Raise exc => Raise exc
   end).
Proof.
  intros Hports H1 H2. unfold run_tests. rewrite Hports. cbn [length Nat.ltb Nat.leb].
  rewrite (flash_loop_two w p1 p2 H1 H2), test_mesh_communication_eq.
  unfold result, report_overall. cbn [snd].
  unfold mbind at 1, M_bind at 1.
  unfold mbind at 1, M_bind at 1.
  rewrite py_all_two_devices.
  destruct (match output_queue w with Ret _ => _ | Raise _ => _ end) as [mesh | exc].
  - unfold emit, mbind, M_bind, mret, M_ret. cbn [imap app].
    by rewrite <- !app_assoc.
  - cbn [imap app]. by rewrite <- !app_assoc.
Qed.

(** (C8) [flash_firmware] returns true exactly when the upload exits
    with status zero within its 300 s; a timeout, a non-zero exit or any
    other failure is returned as false and raises nothing.  In a run
    with two devices both are flashed whatever the first upload gave,
    the monitors are then started for both ports, and the run returns
    the conjunction of both flash results and the mesh verdict: with
    flash results false and true the overall result is false even for a
    true mesh verdict. *)
Theorem flash_failure_recorded_and_required (w : World Time) p1 p2 :
  find_t_deck_devices unicode_lower (comports w) = [p1; p2] ->
  subprocess_run w p1 <> Raise KeyboardInterrupt ->
  subprocess_run w p2 <> Raise KeyboardInterrupt ->
  (forall p name,
      result (flash_firmware w p name) = Ret true <-> subprocess_run w p = Ret 0) /\
  (forall p name,
      subprocess_run w p = Raise TimeoutExpired \/
      subprocess_run w p = Raise OtherException \/
      (exists rc, rc <> 0 /\ subprocess_run w p = Ret rc) ->
      flash_firmware w p name = ([EvFlash p name 300], Ret false)) /\
  (exists rest,
      trace (run_tests unicode_lower w) =
      flash_events p1 (lit "T-Deck-1") (exit_ok (subprocess_run w p1)) ++
      flash_events p2 (lit "T-Deck-2") (exit_ok (subprocess_run w p2)) ++
      [EvMonitor p1 (lit "T-Deck-1") 90; EvMonitor p2 (lit "T-Deck-2") 90] ++ rest) /\
  (forall mesh,
      result (test_mesh_communication unicode_lower w [p1; p2]) = Ret mesh ->
      result (run_tests unicode_lower w) =
      Ret (exit_ok (subprocess_run w p1) && exit_ok (subprocess_run w p2) && mesh)) /\
  (forall exc,
      result (test_mesh_communication unicode_lower w [p1; p2]) = Raise exc ->
      result (run_tests unicode_lower w) = Raise exc) /\
  (forall mesh,
      report_overall (<[lit "T-Deck-2" := true]> (<[lit "T-Deck-1" := false]> ∅)) mesh
      = false).
Proof.
  intros Hports H1 H2.
  pose proof (run_tests_two w p1 p2 Hports H1 H2) as Hrun.
  split.
  { intros p name. unfold flash_firmware, emit, mbind, M_bind, mret, M_ret, throw, result.
    destruct (subprocess_run w p) as [rc | []]; simpl; try by split.
    split.
    - intros [= Hrc%Z.eqb_eq]. by subst.
    - by intros [= ->]. }
  split.
  { intros p name H. rewrite flash_firmware_eq.
    - destruct H as [-> | [-> | (rc & Hrc & ->)]]; simpl; try done.
      by rewrite (proj2 (Z.eqb_neq rc 0) Hrc).
    - destruct H as [-> | [-> | (rc & Hrc & ->)]]; done. }
  split.
  { rewrite Hrun. unfold trace. cbn [fst]. by eexists. }
  split.
  { intros mesh Hm. rewrite Hrun. unfold result at 1. cbn [snd]. by rewrite Hm. }
  split.
  { intros exc Hm. rewrite Hrun. unfold result at 1. cbn [snd]. by rewrite Hm. }
  intros mesh. unfold report_overall. by rewrite py_all_two_devices.
Qed.

(** ** The exit code *)

Lemma main_exit_code args (w : World Time) :
  (main unicode_lower args w).2 =
  match result (run_tests unicode_lower w) with
  | Ret true => 0
  | Ret false => 1
  | Raise _ => 1
  end.
Proof.
  unfold main, result. by destruct (run_tests unicode_lower w) as [t [[] | exc]].
Qed.

(** An interruption during an upload ends the process with 1. *)
Lemma main_interrupted_while_flashing args (w : World Time) p1 p2 :
  find_t_deck_devices unicode_lower (comports w) = [p1; p2] ->
  subprocess_run w p1 = Raise KeyboardInterrupt ->
  main unicode_lower args w = ([EvFlash p1 (lit "T-Deck-1") 300], 1).
Proof.
  intros Hports Hint. unfold main, run_tests. rewrite Hports.
  cbn [length Nat.ltb Nat.leb flash_loop].
  by rewrite (flash_firmware_interrupted w p1 _ Hint).
Qed.

End Properties.

(** ** The command line *)

(** (C4) [main] never looks at [--skip-flash] or [--test-duration]: run
    with both, on two boards whose uploads succeed, it still flashes both
    and starts both monitors for 90 s; for every command line the events
    and the exit code are those of the default one. *)
Theorem flags_are_ignored :
  main sample_unicode_lower (mkArgs false true 30) quiet_world =
  ([EvFlash (lit "/dev/ttyUSB0") (lit "T-Deck-1") 300; EvSleep 10;
    EvFlash (lit "/dev/ttyACM0") (lit "T-Deck-2") 300; EvSleep 10;
    EvMonitor (lit "/dev/ttyUSB0") (lit "T-Deck-1") 90;
    EvMonitor (lit "/dev/ttyACM0") (lit "T-Deck-2") 90;
    EvWriteReport report_file false], 1) /\
  (forall (Time : Type) (unicode_lower : str -> code -> str -> str)
          (args : Args) (w : World Time),
      main unicode_lower args w = main unicode_lower default_args w).
Proof. split; [vm_compute; reflexivity | reflexivity]. Qed.

(** ** The properties at work on the scenarios *)

Lemma sample_unicode_lower_no_ascii_upper pre c post x :
  is_ascii c = false -> x ∈ sample_unicode_lower pre c post ->
  is_ascii_upper x = false.
Proof.
  unfold sample_unicode_lower, is_ascii, is_ascii_upper.
  intros Hc%N.ltb_ge. destruct (c =? 8490)%N.
  - by intros ->%list_elem_of_singleton.
  - intros ->%list_elem_of_singleton.
    apply andb_false_iff. right. apply N.leb_gt. lia.
Qed.

(** The Kelvin sign lowercases to k and still spells no "Kyber". *)
Example kelvin_sign_line :
  lower sample_unicode_lower (8490%N :: lit "yber initialized") = lit "kyber initialized" /\
  hit sample_unicode_lower pattern_kyber_init (0, 8490%N :: lit "yber initialized") = false.
Proof. split; vm_compute; reflexivity. Qed.

(** The verdict can be true, on a result the analysis never produces. *)
Example passing_analysis_verdict : verdict passing_analysis = true.
Proof. vm_compute. reflexivity. Qed.

(** The verdict on a result with two devices, both initialised, both
    with keys, one exchange attempt each, four errors at most: the sum is
    2 and the verdict true. *)
Lemma verdict_iff_four_criteria_witness :
  sums_to (key_exchange_attempts passing_analysis) 2 /\
  verdict passing_analysis = true.
Proof.
  assert (Hsum : sums_to (key_exchange_attempts passing_analysis) 2).
  { apply (sums_to_insert (lit "T-Deck-2") 1 _ 1); [vm_compute; reflexivity |].
    apply (sums_to_insert (lit "T-Deck-1") 1 _ 0); [vm_compute; reflexivity |].
    apply sums_to_empty. }
  split; [exact Hsum |].
  pose proof (verdict_iff_four_criteria passing_analysis)
    as (Hinit & Hkeygen & _ & Hexchanges & Herrors & Hverdict & _).
  apply Hverdict. split; [| split; [| split]].
  - apply Hinit. intros d b H. unfold passing_analysis in H. cbn [kyber_init] in H.
    apply lookup_insert_Some in H as [[_ <-] | [_ H]]; [reflexivity |].
    apply lookup_insert_Some in H as [[_ <-] | [_ H]]; [reflexivity |].
    rewrite lookup_empty in H. discriminate.
  - apply Hkeygen. intros d b H. unfold passing_analysis in H. cbn [key_generation] in H.
    apply lookup_insert_Some in H as [[_ <-] | [_ H]]; [reflexivity |].
    apply lookup_insert_Some in H as [[_ <-] | [_ H]]; [reflexivity |].
    rewrite lookup_empty in H. discriminate.
  - apply Hexchanges. exists 2. split; [exact Hsum | lia].
  - apply Herrors. intros d n H. unfold passing_analysis in H. cbn [errors] in H.
    apply lookup_insert_Some in H as [[_ <-] | [_ H]]; [lia |].
    apply lookup_insert_Some in H as [[_ <-] | [_ H]]; [lia |].
    rewrite lookup_empty in H. discriminate.
Defined.

Lemma kyber_categories_never_detected_witness :
  is_Some (handshake_logs 0 !! lit "T-Deck-1") /\
  (kyber_init (analyze_log_output sample_unicode_lower (handshake_logs 0)) !! lit "T-Deck-1"
     = Some false /\
   key_generation (analyze_log_output sample_unicode_lower (handshake_logs 0)) !! lit "T-Deck-1"
     = Some false /\
   key_exchange_attempts (analyze_log_output sample_unicode_lower (handshake_logs 0))
     !! lit "T-Deck-1" = Some 0 /\
   both_init (success_criteria (analyze_log_output sample_unicode_lower (handshake_logs 0)))
     = false /\
   verdict (analyze_log_output sample_unicode_lower (handshake_logs 0)) = false /\
   (forall (w : World Z) ports,
       result (test_mesh_communication sample_unicode_lower w ports) = Ret false \/
       exists exc : exn,
         result (test_mesh_communication sample_unicode_lower w ports) = Raise exc)).
Proof.
  assert (H : is_Some (handshake_logs 0 !! lit "T-Deck-1")).
  { eexists. vm_compute. reflexivity. }
  split; [exact H |].
  exact (kyber_categories_never_detected sample_unicode_lower
           sample_unicode_lower_no_ascii_upper (handshake_logs 0) (lit "T-Deck-1") H).
Defined.

Lemma categories_present_with_defaults_witness :
  half_silent_logs !! lit "T-Deck-2" = Some [] /\
  (forall c : flag_category,
      flag_of c (analyze_log_output sample_unicode_lower half_silent_logs)
        !! lit "T-Deck-2" = Some false) /\
  (forall c : count_category,
      count_of c (analyze_log_output sample_unicode_lower half_silent_logs)
        !! lit "T-Deck-2" = Some 0).
Proof.
  assert (H : half_silent_logs !! lit "T-Deck-2" = Some []) by (vm_compute; reflexivity).
  split; [exact H |].
  pose proof (categories_present_with_defaults sample_unicode_lower
                half_silent_logs (lit "T-Deck-2") [] H) as (_ & _ & _ & _ & Hempty).
  split.
  - intros c. exact (proj1 (Hempty eq_refl c Errors)).
  - intros c. exact (proj2 (Hempty eq_refl KyberInit c)).
Defined.

Lemma flag_stays_true_witness :
  flag_of QuantumSecurityActive
    (analyze_lines sample_unicode_lower (lit "T-Deck-1") (timed 0 [secure_line])
       (init_device (lit "T-Deck-1") empty_results)) !! lit "T-Deck-1" = Some true /\
  flag_of QuantumSecurityActive
    (analyze_lines sample_unicode_lower (lit "T-Deck-1")
       (timed 0 [secure_line] ++ timed 1 [lit "rebooting"; lit "ERROR: brownout"])
       (init_device (lit "T-Deck-1") empty_results)) !! lit "T-Deck-1" = Some true.
Proof.
  assert (H : flag_of QuantumSecurityActive
                (analyze_lines sample_unicode_lower (lit "T-Deck-1") (timed 0 [secure_line])
                   (init_device (lit "T-Deck-1") empty_results)) !! lit "T-Deck-1"
              = Some true) by (vm_compute; reflexivity).
  split; [exact H |].
  exact (flag_stays_true sample_unicode_lower QuantumSecurityActive (lit "T-Deck-1")
           (timed 0 [secure_line]) (timed 1 [lit "rebooting"; lit "ERROR: brownout"])
           (init_device (lit "T-Deck-1") empty_results) H).
Defined.

Lemma analysis_ignores_timestamps_witness :
  ((fun logs : list (Z * str) => logs.*2) <$> handshake_logs 0) =
  ((fun logs : list (Z * str) => logs.*2) <$> handshake_logs 1700000000) /\
  analyze_log_output sample_unicode_lower (handshake_logs 0) =
  analyze_log_output sample_unicode_lower (handshake_logs 1700000000).
Proof.
  assert (H : ((fun logs : list (Z * str) => logs.*2) <$> handshake_logs 0) =
              ((fun logs : list (Z * str) => logs.*2) <$> handshake_logs 1700000000))
    by (vm_compute; reflexivity).
  split; [exact H |].
  exact (analysis_ignores_timestamps sample_unicode_lower
           (handshake_logs 0) (handshake_logs 1700000000) H).
Defined.

Lemma flash_failure_recorded_and_required_witness :
  find_t_deck_devices sample_unicode_lower (comports timeout_world)
    = [lit "/dev/ttyUSB0"; lit "/dev/ttyACM0"] /\
  subprocess_run timeout_world (lit "/dev/ttyUSB0") = Raise TimeoutExpired /\
  subprocess_run timeout_world (lit "/dev/ttyACM0") = Ret 0 /\
  (exists rest,
      trace (run_tests sample_unicode_lower timeout_world) =
      [EvFlash (lit "/dev/ttyUSB0") (lit "T-Deck-1") 300;
       EvFlash (lit "/dev/ttyACM0") (lit "T-Deck-2") 300; EvSleep 10;
       EvMonitor (lit "/dev/ttyUSB0") (lit "T-Deck-1") 90;
       EvMonitor (lit "/dev/ttyACM0") (lit "T-Deck-2") 90] ++ rest) /\
  result (run_tests sample_unicode_lower timeout_world) = Ret false.
Proof.
  assert (Hports : find_t_deck_devices sample_unicode_lower (comports timeout_world)
                   = [lit "/dev/ttyUSB0"; lit "/dev/ttyACM0"]) by (vm_compute; reflexivity).
  assert (H1 : subprocess_run timeout_world (lit "/dev/ttyUSB0") = Raise TimeoutExpired)
    by (vm_compute; reflexivity).
  assert (H2 : subprocess_run timeout_world (lit "/dev/ttyACM0") = Ret 0)
    by (vm_compute; reflexivity).
  assert (Hn1 : subprocess_run timeout_world (lit "/dev/ttyUSB0") <> Raise KeyboardInterrupt)
    by (rewrite H1; discriminate).
  assert (Hn2 : subprocess_run timeout_world (lit "/dev/ttyACM0") <> Raise KeyboardInterrupt)
    by (rewrite H2; discriminate).
  assert (Hmesh : result (test_mesh_communication sample_unicode_lower timeout_world
                            [lit "/dev/ttyUSB0"; lit "/dev/ttyACM0"]) = Ret false)
    by (vm_compute; reflexivity).
  pose proof (flash_failure_recorded_and_required sample_unicode_lower timeout_world
                (lit "/dev/ttyUSB0") (lit "/dev/ttyACM0") Hports Hn1 Hn2)
    as (_ & _ & Htrace & Hresult & _).
  split; [exact Hports |]. split; [exact H1 |]. split; [exact H2 |].
  split.
  - rewrite H1, H2 in Htrace. exact Htrace.
  - rewrite (Hresult false Hmesh), H1, H2. reflexivity.
Defined.

Lemma discovery_first_two_or_nothing_witness :
  find_t_deck_devices sample_unicode_lower (comports quiet_world)
    = [lit "/dev/ttyUSB0"; lit "/dev/ttyACM0"] /\
  (length (find_t_deck_devices sample_unicode_lower (comports quiet_world)) <= 2)%nat /\
  run_tests sample_unicode_lower lonely_world = ([], Ret false).
Proof.
  split; [vm_compute; reflexivity |].
  split.
  - exact (proj1 (discovery_first_two_or_nothing sample_unicode_lower quiet_world)).
  - apply (discovery_first_two_or_nothing sample_unicode_lower lonely_world).
    vm_compute. lia.
Defined.

(** * Further properties *)

(** ** Substrings and literal patterns *)

Lemma startswith_prefix p s :
  startswith p s = true <-> exists post, s = p ++ post.
Proof.
  revert s. induction p as [| a p IH]; intros s; simpl.
  - split; [intros _; by exists s | done].
  - destruct s as [| b s]; [split; [done | by intros (post & ?)] |].
    rewrite andb_true_iff, N.eqb_eq, IH. split.
    + intros [-> (post & ->)]. by exists post.
    + intros (post & [= -> ->]). split; [done | by exists post].
Qed.

Lemma str_in_substring needle hay :
  str_in needle hay = true <-> exists pre post, hay = pre ++ needle ++ post.
Proof.
  induction hay as [| c hay IH].
  - simpl. rewrite orb_false_r, startswith_prefix. split.
    + intros (post & ->). by exists [], post.
    + intros (pre & post & H). symmetry in H.
      apply app_eq_nil in H as [-> H]. by exists post.
  - change (str_in needle (c :: hay))
      with (startswith needle (c :: hay) || str_in needle hay).
    rewrite orb_true_iff, startswith_prefix, IH. split.
    + intros [(post & ->) | (pre & post & ->)].
      * by exists [], post.
      * by exists (c :: pre), post.
    + intros (pre & post & H). destruct pre as [| c' pre].
      * left. by exists post.
      * injection H as -> ->. right. by exists pre, post.
Qed.

Lemma lang_literal word s : lang (literal word) s <-> s = word.
Proof.
  revert s. induction word as [| c word IH]; intros s; simpl.
  - split; [by inversion 1 | intros ->; constructor].
  - split.
    + inversion 1 as [| | | ? ? s1 s2 H1 H2 | | | |]; subst.
      inversion H1; subst. apply IH in H2. by subst.
    + intros ->. change (c :: word) with ([c] ++ word).
      constructor; [constructor | by apply IH].
Qed.

(** Searching for a literal pattern is the substring test. *)
Lemma re_search_literal word s : re_search (literal word) s = str_in word s.
Proof.
  apply eq_true_iff_eq. rewrite re_search_lang, str_in_substring. split.
  - intros (s0 & s1 & s2 & -> & ->%lang_literal). by exists s0, s2.
  - intros (pre & post & ->). exists pre, word, post. by rewrite lang_literal.
Qed.

Lemma re_search_alt r1 r2 s :
  re_search (Alt r1 r2) s = re_search r1 s || re_search r2 s.
Proof.
  apply eq_true_iff_eq. rewrite orb_true_iff, !re_search_lang. split.
  - intros (s0 & s1 & s2 & -> & H). inversion H; subst; [left | right]; eauto.
  - intros [(s0 & s1 & s2 & -> & H) | (s0 & s1 & s2 & -> & H)];
      exists s0, s1, s2; (split; [done |]); [by apply lang_alt_l | by apply lang_alt_r].
Qed.

Lemma str_in_needs c needle hay :
  c ∈ needle -> c ∉ hay -> str_in needle hay = false.
Proof.
  intros Hc Hh. destruct (str_in needle hay) eqn:H; [| done].
  apply str_in_substring in H as (pre & post & ->).
  exfalso. apply Hh. rewrite !elem_of_app. auto.
Qed.

Section MoreAnalysis.

Context {Time : Type}.
Variable unicode_lower : str -> code -> str -> str.

Implicit Types (d : str) (logs : list (Time * str)).
Implicit Types (device_logs : gmap str (list (Time * str))).

(** ** The devices of the result *)

(** (X1) The result speaks of the devices of the input mapping and of no
    other: each of the seven dictionaries has exactly the keys of
    [device_logs]. *)
Theorem result_keys_are_input_keys device_logs :
  (forall c : flag_category,
      dom (flag_of c (analyze_log_output unicode_lower device_logs)) = dom device_logs) /\
  (forall c : count_category,
      dom (count_of c (analyze_log_output unicode_lower device_logs)) = dom device_logs).
Proof.
  split; intros c.
  - by rewrite flag_of_analyze_log_output, dom_fmap_L.
  - by rewrite count_of_analyze_log_output, dom_fmap_L.
Qed.

(** (X2) What is reported for a device depends on its own log only:
    replacing, adding or removing the log of another device changes none
    of its seven entries. *)
Theorem other_devices_do_not_interfere device_logs k d logs :
  k <> d ->
  (forall c : flag_category,
      flag_of c (analyze_log_output unicode_lower (<[k:=logs]> device_logs)) !! d =
      flag_of c (analyze_log_output unicode_lower device_logs) !! d /\
      flag_of c (analyze_log_output unicode_lower (delete k device_logs)) !! d =
      flag_of c (analyze_log_output unicode_lower device_logs) !! d) /\
  (forall c : count_category,
      count_of c (analyze_log_output unicode_lower (<[k:=logs]> device_logs)) !! d =
      count_of c (analyze_log_output unicode_lower device_logs) !! d /\
      count_of c (analyze_log_output unicode_lower (delete k device_logs)) !! d =
      count_of c (analyze_log_output unicode_lower device_logs) !! d).
Proof.
  intros Hne. split; intros c.
  - rewrite !flag_of_analyze_log_output, !lookup_fmap.
    by rewrite lookup_insert_ne, lookup_delete_ne.
  - rewrite !count_of_analyze_log_output, !lookup_fmap.
    by rewrite lookup_insert_ne, lookup_delete_ne.
Qed.

(** ** The lines of a log, reordered and concatenated *)

Lemma seen_permutation p logs1 logs2 :
  logs1 ≡ₚ logs2 -> seen unicode_lower p logs1 = seen unicode_lower p logs2.
Proof.
  unfold seen. induction 1 as [| e l1 l2 _ IH | e1 e2 l | l1 l2 l3 _ IH1 _ IH2]; simpl.
  - done.
  - by rewrite IH.
  - by destruct (hit unicode_lower p e1), (hit unicode_lower p e2).
  - by rewrite IH1.
Qed.

Lemma count_permutation p logs1 logs2 :
  logs1 ≡ₚ logs2 -> count unicode_lower p logs1 = count unicode_lower p logs2.
Proof.
  induction 1 as [| e l1 l2 _ IH | e1 e2 l | l1 l2 l3 _ IH1 _ IH2].
  - done.
  - by rewrite !count_cons, IH.
  - rewrite !count_cons. lia.
  - by rewrite IH1.
Qed.

(** (X3) The order of the lines of a log does not matter: a device whose
    lines are permuted gets the same result. *)
Theorem line_order_does_not_matter device_logs d logs1 logs2 :
  logs1 ≡ₚ logs2 ->
  analyze_log_output unicode_lower (<[d:=logs1]> device_logs) =
  analyze_log_output unicode_lower (<[d:=logs2]> device_logs).
Proof.
  intros Hp. rewrite !analyze_log_output_eq, !fmap_insert.
  by rewrite !(seen_permutation _ _ _ Hp), !(count_permutation _ _ _ Hp).
Qed.

Lemma seen_app p logs1 logs2 :
  seen unicode_lower p (logs1 ++ logs2) =
  seen unicode_lower p logs1 || seen unicode_lower p logs2.
Proof. unfold seen. apply existsb_app. Qed.

Lemma count_app p logs1 logs2 :
  count unicode_lower p (logs1 ++ logs2) =
  count unicode_lower p logs1 + count unicode_lower p logs2.
Proof.
  induction logs1 as [| e logs1 IH]; [done |].
  change ((e :: logs1) ++ logs2) with (e :: (logs1 ++ logs2)).
  rewrite !count_cons, IH. lia.
Qed.

(** (X4) A log in two parts: for the log [pre ++ post] of a device every
    count is the sum of the counts of the two parts and every boolean is
    the disjunction of theirs. *)
Theorem concatenated_log_adds_up device_logs d pre post :
  (forall c : flag_category, exists b1 b2,
      flag_of c (analyze_log_output unicode_lower (<[d:=pre]> device_logs)) !! d
        = Some b1 /\
      flag_of c (analyze_log_output unicode_lower (<[d:=post]> device_logs)) !! d
        = Some b2 /\
      flag_of c (analyze_log_output unicode_lower (<[d:=pre ++ post]> device_logs)) !! d
        = Some (b1 || b2)) /\
  (forall c : count_category, exists n1 n2,
      count_of c (analyze_log_output unicode_lower (<[d:=pre]> device_logs)) !! d
        = Some n1 /\
      count_of c (analyze_log_output unicode_lower (<[d:=post]> device_logs)) !! d
        = Some n2 /\
      count_of c (analyze_log_output unicode_lower (<[d:=pre ++ post]> device_logs)) !! d
        = Some (n1 + n2)).
Proof.
  split; intros c.
  - exists (seen unicode_lower (flag_pattern c) pre),
      (seen unicode_lower (flag_pattern c) post).
    rewrite !flag_of_analyze_log_output, !lookup_fmap, !lookup_insert_eq. simpl.
    by rewrite seen_app.
  - exists (count unicode_lower (count_pattern c) pre),
      (count unicode_lower (count_pattern c) post).
    rewrite !count_of_analyze_log_output, !lookup_fmap, !lookup_insert_eq. simpl.
    by rewrite count_app.
Qed.

Lemma count_le_length p logs :
  0 <= count unicode_lower p logs <= Z.of_nat (length logs).
Proof.
  unfold count. split; [lia |].
  apply Nat2Z.inj_le. induction logs as [| e logs IH]; simpl; [done |].
  destruct (hit unicode_lower p e); simpl; lia.
Qed.

(** (X5) A count is never negative and never exceeds the number of lines
    the device logged: a line adds at most one to a category. *)
Theorem counts_within_log_length device_logs d logs (c : count_category) :
  device_logs !! d = Some logs ->
  exists n,
    count_of c (analyze_log_output unicode_lower device_logs) !! d = Some n /\
    0 <= n <= Z.of_nat (length logs).
Proof.
  intros Hd. exists (count unicode_lower (count_pattern c) logs). split.
  - by rewrite count_of_analyze_log_output, lookup_fmap, Hd.
  - apply count_le_length.
Qed.

(** ** The error category *)

Lemma pattern_error_literals :
  pattern_error =
  Alt (literal (lit "ERROR"))
    (Alt (literal (lit "FAIL")) (Alt (literal (lit "error")) (literal (lit "fail")))).
Proof. reflexivity. Qed.

Section ErrorLines.

Hypothesis unicode_lower_no_ascii_upper :
  forall pre c post x,
    is_ascii c = false -> x ∈ unicode_lower pre c post -> is_ascii_upper x = false.

Lemma hit_pattern_error (e : Time * str) :
  hit unicode_lower pattern_error e = mentions_error unicode_lower e.2.
Proof.
  unfold hit, mentions_error.
  rewrite pattern_error_literals, !re_search_alt, !re_search_literal.
  rewrite (str_in_needs 69%N (lit "ERROR")), (str_in_needs 70%N (lit "FAIL")); [done | | | |].
  - by apply (list_elem_of_lookup_2 _ 0%nat).
  - by apply upper_not_in_lower.
  - by apply (list_elem_of_lookup_2 _ 0%nat).
  - by apply upper_not_in_lower.
Qed.

Lemma count_pattern_error logs :
  count unicode_lower pattern_error logs =
  Z.of_nat (length (List.filter (mentions_error unicode_lower) logs.*2)).
Proof.
  induction logs as [| e logs IH]; [done |].
  rewrite count_cons, IH, hit_pattern_error.
  cbn [fmap list_fmap List.filter].
  destruct (mentions_error unicode_lower e.2); cbn [length]; lia.
Qed.

End ErrorLines.

End MoreAnalysis.

(** (X6) The error count of a device is the number of its lines whose
    lowercased text holds "error" or "fail": capitals in the log count
    as well, the capital alternatives of the pattern never do. *)
Theorem errors_count_lines_mentioning_error {Time : Type}
    (unicode_lower : str -> code -> str -> str)
    (device_logs : gmap str (list (Time * str))) d logs :
  (forall pre c post x,
      is_ascii c = false -> x ∈ unicode_lower pre c post -> is_ascii_upper x = false) ->
  device_logs !! d = Some logs ->
  errors (analyze_log_output unicode_lower device_logs) !! d =
  Some (Z.of_nat (length (List.filter (mentions_error unicode_lower) logs.*2))).
Proof.
  intros Hlower Hd.
  rewrite (count_of_analyze_log_output unicode_lower Errors), lookup_fmap, Hd. simpl.
  by rewrite count_pattern_error.
Qed.

Lemma errors_count_lines_mentioning_error_witness :
  noisy_logs !! lit "T-Deck-1" = Some (timed 1 noisy_lines) /\
  errors (analyze_log_output sample_unicode_lower noisy_logs) !! lit "T-Deck-1" = Some 5.
Proof.
  assert (H : noisy_logs !! lit "T-Deck-1" = Some (timed 1 noisy_lines))
    by (vm_compute; reflexivity).
  split; [exact H |].
  exact (errors_count_lines_mentioning_error sample_unicode_lower noisy_logs
           (lit "T-Deck-1") (timed 1 noisy_lines)
           sample_unicode_lower_no_ascii_upper H).
Defined.

(** (X7) The low-errors criterion holds exactly when every device has
    fewer than five lines that mention an error or a failure, in any
    ASCII case. *)
Theorem low_errors_iff_few_error_lines {Time : Type}
    (unicode_lower : str -> code -> str -> str)
    (device_logs : gmap str (list (Time * str))) :
  (forall pre c post x,
      is_ascii c = false -> x ∈ unicode_lower pre c post -> is_ascii_upper x = false) ->
  low_errors (success_criteria (analyze_log_output unicode_lower device_logs)) = true <->
  forall d logs,
    device_logs !! d = Some logs ->
    (length (List.filter (mentions_error unicode_lower) logs.*2) < 5)%nat.
Proof.
  intros Hlower. simpl. rewrite py_all_values_fmap.
  rewrite (count_of_analyze_log_output unicode_lower Errors device_logs
           : errors _ = _).
  split.
  - intros H d logs Hd.
    specialize (H d (count unicode_lower pattern_error logs)).
    rewrite lookup_fmap, Hd in H. specialize (H eq_refl).
    rewrite count_pattern_error in H by done. apply Z.ltb_lt in H. lia.
  - intros H d n. rewrite lookup_fmap.
    destruct (device_logs !! d) as [logs |] eqn:Hd; [| done].
    intros [= <-]. rewrite count_pattern_error by done.
    apply Z.ltb_lt. specialize (H d logs Hd). lia.
Qed.

Lemma low_errors_iff_few_error_lines_witness :
  low_errors (success_criteria (analyze_log_output sample_unicode_lower noisy_logs))
  = false.
Proof.
  destruct (low_errors _) eqn:Hlow; [| reflexivity].
  pose proof (proj1 (low_errors_iff_few_error_lines sample_unicode_lower noisy_logs
                       sample_unicode_lower_no_ascii_upper) Hlow
                (lit "T-Deck-1") (timed 1 noisy_lines) eq_refl) as H.
  vm_compute in H. lia.
Defined.

(** Witnesses of the properties of the analysis. *)

Lemma other_devices_do_not_interfere_witness :
  lit "T-Deck-1" <> lit "T-Deck-2" /\
  count_of Errors (analyze_log_output sample_unicode_lower
                     (<[lit "T-Deck-1" := timed 9 noisy_lines]> half_silent_logs))
    !! lit "T-Deck-2" =
  count_of Errors (analyze_log_output sample_unicode_lower half_silent_logs)
    !! lit "T-Deck-2".
Proof.
  assert (Hne : lit "T-Deck-1" <> lit "T-Deck-2") by (vm_compute; discriminate).
  split; [exact Hne |].
  exact (proj1 (proj2 (other_devices_do_not_interfere sample_unicode_lower
                         half_silent_logs (lit "T-Deck-1") (lit "T-Deck-2")
                         (timed 9 noisy_lines) Hne) Errors)).
Defined.

Lemma line_order_does_not_matter_witness :
  analyze_log_output sample_unicode_lower
    (<[lit "T-Deck-1" := [(1, secure_line); (2, exchange_error_line)]]> half_silent_logs) =
  analyze_log_output sample_unicode_lower
    (<[lit "T-Deck-1" := [(2, exchange_error_line); (1, secure_line)]]> half_silent_logs).
Proof.
  exact (line_order_does_not_matter sample_unicode_lower half_silent_logs
           (lit "T-Deck-1") [(1, secure_line); (2, exchange_error_line)]
           [(2, exchange_error_line); (1, secure_line)]
           (perm_swap _ _ _)).
Defined.

Lemma counts_within_log_length_witness :
  noisy_logs !! lit "T-Deck-1" = Some (timed 1 noisy_lines) /\
  exists n,
    count_of Errors (analyze_log_output sample_unicode_lower noisy_logs)
      !! lit "T-Deck-1" = Some n /\
    0 <= n <= 6.
Proof.
  assert (H : noisy_logs !! lit "T-Deck-1" = Some (timed 1 noisy_lines))
    by (vm_compute; reflexivity).
  split; [exact H |].
  exact (counts_within_log_length sample_unicode_lower noisy_logs (lit "T-Deck-1")
           (timed 1 noisy_lines) Errors H).
Defined.

(** ** Device names *)

Lemma lit_inj s1 s2 : lit s1 = lit s2 -> s1 = s2.
Proof.
  unfold lit. revert s2. induction s1 as [| a s1 IH]; intros [| b s2]; simpl; try done.
  intros [= Hab Hs]. f_equal; [| by apply IH].
  rewrite <- (ascii_N_embedding a), <- (ascii_N_embedding b). by rewrite Hab.
Qed.

Lemma device_name_of_inj i j : device_name_of i = device_name_of j -> i = j.
Proof.
  unfold device_name_of. intros H%app_inv_head%lit_inj.
  apply (inj pretty) in H. lia.
Qed.

Section MoreRun.

Context {Time : Type}.
Variable unicode_lower : str -> code -> str -> str.

Implicit Types (w : World Time) (ports : list str).

(** ** The flashing loop, for any number of ports *)

Lemma flash_loop_uninterrupted w ports : forall i flash_results,
  (forall p, p ∈ ports -> subprocess_run w p <> Raise KeyboardInterrupt) ->
  exists flash_results',
    flash_loop w i ports flash_results =
    (mjoin (imap (fun j p => flash_events p (device_name_of (i + j))
                               (exit_ok (subprocess_run w p))) ports),
     Ret flash_results') /\
    (forall j p, ports !! j = Some p ->
                 flash_results' !! device_name_of (i + j)
                 = Some (exit_ok (subprocess_run w p))) /\
    (forall name, (forall j, (j < length ports)%nat -> name <> device_name_of (i + j)) ->
                  flash_results' !! name = flash_results !! name).
Proof.
  induction ports as [| p rest IH]; intros i fr Hint.
  - exists fr. by repeat split.
  - destruct (IH (S i) (<[device_name_of i := exit_ok (subprocess_run w p)]> fr))
      as (fr' & Hloop & Hin & Hout).
    { intros q Hq. apply Hint. by right. }
    exists fr'. split; [| split].
    + cbn [flash_loop]. rewrite flash_firmware_eq by (apply Hint; left).
      unfold mbind at 1, M_bind at 1. unfold mbind at 1, M_bind at 1.
      rewrite Hloop, imap_cons, Nat.add_0_r. cbn [mjoin list_join].
      rewrite (imap_ext
                 ((fun j q => flash_events q (device_name_of (i + j))
                                (exit_ok (subprocess_run w q))) ∘ S)
                 (fun j q => flash_events q (device_name_of (S i + j))
                               (exit_ok (subprocess_run w q))));
        [| intros j q _; simpl; by rewrite Nat.add_succ_r].
      unfold flash_events, emit, mret, M_ret.
      by destruct (exit_ok (subprocess_run w p)).
    + intros [| j] q Hq; simpl in Hq.
      * injection Hq as <-. rewrite Nat.add_0_r, Hout; [apply lookup_insert_eq |].
        intros j _ H%device_name_of_inj. lia.
      * replace (i + S j)%nat with (S i + j)%nat by lia. by apply Hin.
    + intros name Hname. rewrite Hout.
      * apply lookup_insert_ne. intros <-. apply (Hname 0%nat); simpl; [lia |].
        by rewrite Nat.add_0_r.
      * intros j Hj. replace (S i + j)%nat with (i + S j)%nat by lia.
        apply Hname. simpl. lia.
Qed.

(** (X8) Every port handed to the flashing loop is flashed once, in
    order and under its own device name, whatever the earlier uploads
    gave; the ten-second pause follows the successful uploads only; and
    the results hold, for each device, whether its upload exited with
    zero, and nothing else. *)
Theorem flash_loop_flashes_every_port w ports :
  (forall p, p ∈ ports -> subprocess_run w p <> Raise KeyboardInterrupt) ->
  exists flash_results,
    flash_loop w 0 ports ∅ =
    (mjoin (imap (fun j p => flash_events p (device_name_of j)
                               (exit_ok (subprocess_run w p))) ports),
     Ret flash_results) /\
    (forall j p, ports !! j = Some p ->
                 flash_results !! device_name_of j
                 = Some (exit_ok (subprocess_run w p))) /\
    (forall name, is_Some (flash_results !! name) ->
                  exists j, (j < length ports)%nat /\ name = device_name_of j).
Proof.
  intros Hint.
  destruct (flash_loop_uninterrupted w ports 0 ∅ Hint) as (fr & Hloop & Hin & Hout).
  exists fr. split; [exact Hloop |]. split; [exact Hin |].
  intros name Hsome.
  destruct (decide (name ∈ device_name_of <$> seq 0 (length ports))) as [Hj | Hnj].
  - apply list_elem_of_fmap in Hj as (j & -> & Hj%elem_of_seq). exists j. split; [lia | done].
  - rewrite Hout in Hsome; [by destruct Hsome |].
    intros j Hj ->. apply Hnj, list_elem_of_fmap. exists j.
    split; [done |]. apply elem_of_seq. lia.
Qed.

Lemma flash_loop_interrupted w pre p post : forall i flash_results,
  (forall q, q ∈ pre -> subprocess_run w q <> Raise KeyboardInterrupt) ->
  subprocess_run w p = Raise KeyboardInterrupt ->
  flash_loop w i (pre ++ p :: post) flash_results =
  (mjoin (imap (fun j q => flash_events q (device_name_of (i + j))
                             (exit_ok (subprocess_run w q))) pre)
     ++ [EvFlash p (device_name_of (i + length pre)) 300],
   Raise KeyboardInterrupt).
Proof.
  induction pre as [| q pre IH]; intros i fr Hpre Hp.
  - cbn [app flash_loop]. rewrite (flash_firmware_interrupted w p _ Hp).
    by rewrite Nat.add_0_r.
  - cbn [app flash_loop]. rewrite flash_firmware_eq by (apply Hpre; left).
    unfold mbind at 1, M_bind at 1. unfold mbind at 1, M_bind at 1.
    rewrite IH; [| intros q' Hq'; apply Hpre; by right | done].
    rewrite imap_cons, Nat.add_0_r. cbn [mjoin list_join length].
    rewrite (imap_ext
               ((fun j q => flash_events q (device_name_of (i + j))
                              (exit_ok (subprocess_run w q))) ∘ S)
               (fun j q => flash_events q (device_name_of (S i + j))
                             (exit_ok (subprocess_run w q))));
      [| intros j q' _; simpl; by rewrite Nat.add_succ_r].
    rewrite Nat.add_succ_r. unfold flash_events, emit, mret, M_ret.
    destruct (exit_ok (subprocess_run w q)); cbn [app fst snd]; by rewrite <- ?app_assoc.
Qed.

(** (X9) An interruption of the upload to some port ends the flashing
    loop there: the ports before it were flashed, the interrupted upload
    was started, no later port is flashed, and [KeyboardInterrupt] goes
    on to the caller. *)
Theorem interrupted_upload_ends_flashing w pre p post :
  (forall q, q ∈ pre -> subprocess_run w q <> Raise KeyboardInterrupt) ->
  subprocess_run w p = Raise KeyboardInterrupt ->
  flash_loop w 0 (pre ++ p :: post) ∅ =
  (mjoin (imap (fun j q => flash_events q (device_name_of j)
                             (exit_ok (subprocess_run w q))) pre)
     ++ [EvFlash p (device_name_of (length pre)) 300],
   Raise KeyboardInterrupt).
Proof. intros Hpre Hp. by rewrite (flash_loop_interrupted w pre p post 0 ∅ Hpre Hp). Qed.

(** ** The whole run *)

Lemma find_none_or_two (ports : list PortInfo) :
  find_t_deck_devices unicode_lower ports = [] \/
  exists p1 p2, find_t_deck_devices unicode_lower ports = [p1; p2].
Proof.
  unfold find_t_deck_devices.
  destruct (length _ <? 2)%nat eqn:Hlen; [by left | right].
  apply Nat.ltb_ge in Hlen.
  destruct (t_deck_ports unicode_lower ports) as [| p1 [| p2 rest]];
    simpl in Hlen; try lia.
  by exists p1, p2.
Qed.

Lemma run_tests_structure w :
  run_tests unicode_lower w = ([], Ret false) \/
  exists p1 p2,
    find_t_deck_devices unicode_lower (comports w) = [p1; p2] /\
    run_tests unicode_lower w =
    match flash_loop w 0 [p1; p2] ∅ with
    | (t1, Raise exc) => (t1, Raise exc)
    | (t1, Ret flash_results) =>
        match test_mesh_communication unicode_lower w [p1; p2] with
        | (t2, Raise exc) => (t1 ++ t2, Raise exc)
        | (t2, Ret mesh) =>
            (t1 ++ t2 ++ [EvWriteReport report_file (report_overall flash_results mesh)],
             Ret (py_all (values flash_results) && mesh))
        end
    end.
Proof.
  destruct (find_none_or_two (comports w)) as [Hnone | (p1 & p2 & Htwo)].
  - left. unfold run_tests. by rewrite Hnone.
  - right. exists p1, p2. split; [done |].
    unfold run_tests. rewrite Htwo. cbn [length Nat.ltb Nat.leb].
    unfold mbind at 1, M_bind at 1.
    destruct (flash_loop w 0 [p1; p2] ∅) as [t1 [fr | exc]]; [| done].
    unfold mbind at 1, M_bind at 1.
    destruct (test_mesh_communication unicode_lower w [p1; p2]) as [t2 [mesh | exc]];
      [| done].
    unfold mbind, M_bind, emit, mret, M_ret. cbn [app]. by rewrite ?app_nil_r.
Qed.

Lemma flash_loop_writes_no_report w ports : forall i flash_results file overall,
  EvWriteReport file overall ∉ trace (flash_loop w i ports flash_results).
Proof.
  induction ports as [| p rest IH]; intros i fr file overall.
  - apply not_elem_of_nil.
  - cbn [flash_loop]. unfold flash_firmware, emit, throw.
    unfold mbind at 2, M_bind at 2.
    destruct (subprocess_run w p) as [rc | []]; unfold mret, M_ret;
      unfold mbind at 1, M_bind at 1; cbn [app];
      try (unfold trace; cbn [fst]; by intros [[=] | []%elem_of_nil]%elem_of_cons).
    + unfold mbind at 1, M_bind at 1.
      specialize (IH (S i) (<[device_name_of i := rc =? 0]> fr) file overall).
      destruct (flash_loop w (S i) rest _) as [t o]. unfold trace in *. simpl in *.
      destruct (rc =? 0); simpl; intros H;
        repeat (apply elem_of_cons in H as [[=] | H]); done.
    + unfold mbind at 1, M_bind at 1.
      specialize (IH (S i) (<[device_name_of i := false]> fr) file overall).
      destruct (flash_loop w (S i) rest _) as [t o]. unfold trace in *. simpl in *.
      intros H; repeat (apply elem_of_cons in H as [[=] | H]); done.
    + unfold mbind at 1, M_bind at 1.
      specialize (IH (S i) (<[device_name_of i := false]> fr) file overall).
      destruct (flash_loop w (S i) rest _) as [t o]. unfold trace in *. simpl in *.
      intros H; repeat (apply elem_of_cons in H as [[=] | H]); done.
Qed.

Lemma test_mesh_communication_writes_no_report w ports file overall :
  EvWriteReport file overall ∉ trace (test_mesh_communication unicode_lower w ports).
Proof.
  rewrite test_mesh_communication_eq. unfold trace. cbn [fst].
  intros (j & p & [=] & _)%elem_of_lookup_imap.
Qed.

(** (X10) The report file is written at most once and as the last thing
    a run does, and the overall flag written is the value [run_tests]
    returns.  A run that stops at discovery or ends in an exception
    writes no report. *)
Theorem report_written_last_with_returned_value w :
  match result (run_tests unicode_lower w) with
  | Ret b =>
      run_tests unicode_lower w = ([], Ret false) \/
      exists t, trace (run_tests unicode_lower w) = t ++ [EvWriteReport report_file b] /\
                forall file overall, EvWriteReport file overall ∉ t
  | Raise _ =>
      forall file overall, EvWriteReport file overall ∉ trace (run_tests unicode_lower w)
  end.
Proof.
  destruct (run_tests_structure w) as [Hnone | (p1 & p2 & _ & Hrun)].
  - rewrite Hnone. unfold result. cbn [snd]. by left.
  - rewrite Hrun.
    pose proof (flash_loop_writes_no_report w [p1; p2] 0 ∅) as Hflash.
    pose proof (test_mesh_communication_writes_no_report w [p1; p2]) as Hmesh.
    destruct (flash_loop w 0 [p1; p2] ∅) as [t1 [fr | exc]];
      unfold trace, result in *; cbn [fst snd] in *; [| done].
    destruct (test_mesh_communication unicode_lower w [p1; p2]) as [t2 [mesh | exc]];
      cbn [fst snd] in *.
    + right. exists (t1 ++ t2). split; [by rewrite app_assoc |].
      intros file overall [H | H]%elem_of_app; [by eapply Hflash | by eapply Hmesh].
    + intros file overall [H | H]%elem_of_app; [by eapply Hflash | by eapply Hmesh].
Qed.

(** (X11) As the code stands the suite cannot succeed: whatever the
    ports, the uploads and the logs, [run_tests] never returns true; so
    once the command line has been parsed, whatever namespace the parser
    returned, the process exits with 1.  (Exits of the parser itself,
    on [--help] or on a refused command line, come before and are not
    covered.) *)
Theorem run_tests_never_succeeds args w :
  (forall pre c post x,
      is_ascii c = false -> x ∈ unicode_lower pre c post -> is_ascii_upper x = false) ->
  result (run_tests unicode_lower w) <> Ret true /\
  (main unicode_lower args w).2 = 1.
Proof.
  intros Hlower.
  assert (Hrun : result (run_tests unicode_lower w) <> Ret true).
  { destruct (run_tests_structure w) as [Hnone | (p1 & p2 & _ & Hrun)].
    - by rewrite Hnone.
    - rewrite Hrun. destruct (flash_loop w 0 [p1; p2] ∅) as [t1 [fr | exc]]; [| done].
      rewrite test_mesh_communication_eq.
      destruct (output_queue w) as [items | exc]; [| done].
      destruct (collect items initial_device_logs) as [device_logs | exc]; [| done].
      rewrite verdict_never_true by done. unfold result. cbn [snd].
      by rewrite andb_false_r. }
  split; [exact Hrun |].
  rewrite main_exit_code. by destruct (result (run_tests unicode_lower w)) as [[] | exc].
Qed.

(** ** Collecting the queue *)

Lemma lines_of_device_cons d name (t : Time) line items :
  lines_of_device d ((name, t, line) :: items) =
  (if decide (name = d) then [(t, line)] else []) ++ lines_of_device d items.
Proof. unfold lines_of_device. simpl. by destruct (decide (name = d)). Qed.

Lemma collect_appends (items : list (str * Time * str)) :
  forall device_logs,
    (forall it, it ∈ items -> is_Some (device_logs !! it.1.1)) ->
    exists device_logs',
      collect items device_logs = Ret device_logs' /\
      forall d, device_logs' !! d =
                (fun logs => logs ++ lines_of_device d items) <$> device_logs !! d.
Proof.
  induction items as [| [[name t] line] items IH]; intros device_logs Hkeys.
  - exists device_logs. split; [done |]. intros d. unfold lines_of_device. simpl.
    destruct (device_logs !! d); simpl; by rewrite ?app_nil_r.
  - destruct (Hkeys (name, t, line)) as [logs Hlogs]; [left |]. simpl in Hlogs.
    destruct (IH (<[name := logs ++ [(t, line)]]> device_logs)) as (dl' & Hc & Hl).
    { intros it Hit. rewrite lookup_insert. case_decide; [done |]. apply Hkeys. by right. }
    exists dl'. split; [simpl; by rewrite Hlogs |].
    intros d. rewrite Hl, lines_of_device_cons, lookup_insert.
    destruct (decide (name = d)) as [-> |]; simpl.
    + rewrite Hlogs. simpl. by rewrite <- app_assoc.
    + done.
Qed.

(** (X12) Collecting sorts the queue by device and keeps the arrival
    order: when every item bears the name of a known device, each
    device's log grows by exactly its own items, in the order they were
    taken from the queue, and no device is added. *)
Theorem collect_sorts_by_device (items : list (str * Time * str))
    (device_logs : gmap str (list (Time * str))) :
  (forall it, it ∈ items -> is_Some (device_logs !! it.1.1)) ->
  exists device_logs',
    collect items device_logs = Ret device_logs' /\
    dom device_logs' = dom device_logs /\
    forall d logs,
      device_logs !! d = Some logs ->
      device_logs' !! d = Some (logs ++ lines_of_device d items).
Proof.
  intros Hkeys. destruct (collect_appends items device_logs Hkeys) as (dl' & Hc & Hl).
  exists dl'. split; [done |]. split.
  - apply set_eq. intros d. rewrite !elem_of_dom, Hl. by rewrite fmap_is_Some.
  - intros d logs Hd. by rewrite Hl, Hd.
Qed.

(** (X13) Collecting fails exactly when some item bears a name that is
    no key of [device_logs]: the lookup raises, and no log is returned
    for analysis. *)
Theorem collect_raises_iff_unknown_device (items : list (str * Time * str))
    (device_logs : gmap str (list (Time * str))) :
  collect items device_logs = Raise OtherException <->
  exists it, it ∈ items /\ device_logs !! it.1.1 = None.
Proof.
  revert device_logs.
  induction items as [| [[name t] line] items IH]; intros device_logs.
  - split; [done | by intros (it & []%elem_of_nil & _)].
  - simpl. destruct (device_logs !! name) as [logs |] eqn:Hname.
    + rewrite IH. split.
      * intros (it & Hit & Hnone). exists it. split; [by right |].
        rewrite lookup_insert in Hnone. by case_decide.
      * intros (it & [-> | Hit]%elem_of_cons & Hnone).
        -- simpl in Hnone. congruence.
        -- exists it. split; [done |]. rewrite lookup_insert.
           case_decide as Hd; [| done]. rewrite <- Hd in Hnone. congruence.
    + split; [| done]. intros _. exists (name, t, line). split; [left | done].
Qed.

End MoreRun.

(** ** The report *)

Lemma not_elem_of_by_head (x : str) (lines : list str) :
  Forall (fun line => head line <> head x) lines -> x ∉ lines.
Proof.
  intros H Hx. rewrite Forall_forall in H. by apply (H x Hx).
Qed.

Lemma verdict_line_in_report (x : str) now devices flash_results mesh_test_result :
  x = passed_line \/ x = failed_line ->
  x ∈ report_lines now devices flash_results mesh_test_result <->
  x = (if py_all flash_results.*2 && mesh_test_result then passed_line else failed_line).
Proof.
  intros Hx. unfold report_lines. rewrite !elem_of_app.
  assert (H1 : x ∉ [lit "KYBER T-DECK MESH NETWORKING TEST REPORT";
                    repeat_str (lit "=") 50; lit "Test Date: " ++ now;
                    lit "Devices Tested: " ++ lit (pretty devices); []]).
  { apply not_elem_of_by_head. destruct Hx as [-> | ->]; by repeat constructor. }
  assert (H2 : x ∉ [lit "FIRMWARE FLASHING RESULTS:"; repeat_str (lit "-") 30]).
  { apply not_elem_of_by_head. destruct Hx as [-> | ->]; by repeat constructor. }
  assert (H3 : x ∉ flash_line <$> flash_results).
  { apply not_elem_of_by_head, Forall_fmap, Forall_forall. intros item _.
    destruct Hx as [-> | ->]; done. }
  assert (H4 : x ∉ [[] : str]).
  { apply not_elem_of_by_head. destruct Hx as [-> | ->]; by repeat constructor. }
  assert (H5 : x ∉ [lit "MESH COMMUNICATION TEST:"; repeat_str (lit "-") 30;
                    lit "  Overall Result: " ++ status_text mesh_test_result; []]).
  { apply not_elem_of_by_head. destruct Hx as [-> | ->]; by repeat constructor. }
  assert (H6 : x ∉ [lit "OVERALL TEST RESULT:"; repeat_str (lit "-") 20]).
  { apply not_elem_of_by_head. destruct Hx as [-> | ->]; by repeat constructor. }
  destruct (py_all flash_results.*2 && mesh_test_result).
  - split; [| intros ->; do 6 right; left].
    intros [? | [? | [? | [? | [? | [? | H]]]]]]; try done.
    apply elem_of_cons in H as [-> | H]; [done |].
    apply list_elem_of_singleton in H. by destruct Hx as [-> | ->].
  - split; [| intros ->; do 6 right; left].
    intros [? | [? | [? | [? | [? | [? | H]]]]]]; try done.
    apply elem_of_cons in H as [-> | H]; [done |].
    apply list_elem_of_singleton in H. by destruct Hx as [-> | ->].
Qed.

Lemma py_all_items (items : list (str * bool)) :
  NoDup items.*1 ->
  py_all items.*2 = py_all (values (list_to_map items : gmap str bool)).
Proof.
  intros Hnd. apply eq_true_iff_eq. rewrite py_all_values, py_all_true. split.
  - intros H d b Hd%elem_of_list_to_map; [| done].
    apply H, list_elem_of_fmap. by exists (d, b).
  - intros H b ([d b'] & -> & Hin)%list_elem_of_fmap.
    apply (H d). by apply elem_of_list_to_map.
Qed.

(** (X14) The report says "ALL TESTS PASSED" exactly when every flash
    result and the mesh result are true, and "SOME TESTS FAILED"
    otherwise; no device name, date or other line of the report can
    stand for either verdict.  Every flash result has its status line,
    and the verdict agrees with the overall flag of the run. *)
Theorem report_verdict_matches_results now devices
    (flash_results : list (str * bool)) mesh_test_result :
  (passed_line ∈ report_lines now devices flash_results mesh_test_result <->
     (forall device success, (device, success) ∈ flash_results -> success = true) /\
     mesh_test_result = true) /\
  (failed_line ∈ report_lines now devices flash_results mesh_test_result <->
     ~ passed_line ∈ report_lines now devices flash_results mesh_test_result) /\
  (forall item, item ∈ flash_results ->
     flash_line item ∈ report_lines now devices flash_results mesh_test_result) /\
  (NoDup flash_results.*1 ->
     (passed_line ∈ report_lines now devices flash_results mesh_test_result <->
      report_overall (list_to_map flash_results) mesh_test_result = true)).
Proof.
  assert (Hne : passed_line <> failed_line) by done.
  pose proof (verdict_line_in_report passed_line now devices flash_results
                mesh_test_result (or_introl eq_refl)) as Hp.
  pose proof (verdict_line_in_report failed_line now devices flash_results
                mesh_test_result (or_intror eq_refl)) as Hf.
  assert (Hall : py_all flash_results.*2 = true <->
                 forall device success, (device, success) ∈ flash_results -> success = true).
  { rewrite py_all_true. split.
    - intros H device success Hin. apply H, list_elem_of_fmap. by exists (device, success).
    - intros H b ([device success] & -> & Hin)%list_elem_of_fmap. by apply (H device). }
  split; [| split; [| split]].
  - rewrite Hp, <- Hall.
    destruct (py_all flash_results.*2), mesh_test_result; simpl; intuition congruence.
  - rewrite Hp, Hf.
    destruct (py_all flash_results.*2 && mesh_test_result); intuition congruence.
  - intros item Hin. unfold report_lines. rewrite !elem_of_app.
    right. right. left. apply list_elem_of_fmap. by exists item.
  - intros Hnd. rewrite Hp. unfold report_overall. rewrite <- (py_all_items _ Hnd).
    destruct (py_all flash_results.*2 && mesh_test_result); intuition congruence.
Qed.

(** ** The dependency check *)

Section CheckScript.

Import Script.
Variable unicode_lower : str -> code -> str -> str.

Lemma IO_bind_done {A B} (m : IO A) (f : A -> IO B) a :
  outcome_of m = Done a ->
  m ≫= f = (output m ++ output (f a), outcome_of (f a)).
Proof.
  destruct m as [t o]. unfold outcome_of, output. simpl. intros ->.
  unfold mbind, IO_bind. by destruct (f a).
Qed.

Lemma IO_bind_failed {A B} (m : IO A) (f : A -> IO B) e :
  outcome_of m = Failed e ->
  m ≫= f = (output m, Failed e).
Proof.
  destruct m as [t o]. unfold outcome_of, output. simpl. by intros ->.
Qed.

Lemma check_python_package_outcome env name install_cmd :
  outcome_of (CheckHardwareDeps.check_python_package env name install_cmd)
  = Done (can_import env name).
Proof.
  unfold CheckHardwareDeps.check_python_package.
  destruct (can_import env name); [done |].
  by destruct install_cmd as [[| c cmd] |].
Qed.

Lemma check_command_outcome env command description :
  outcome_of (CheckHardwareDeps.check_command env command description) =
  match CheckHardwareDeps.command_raises env command with
  | Some e => Failed e
  | None => Done (CheckHardwareDeps.command_ok env command)
  end.
Proof.
  unfold CheckHardwareDeps.check_command, CheckHardwareDeps.command_raises,
    CheckHardwareDeps.command_ok.
  destruct (subprocess_run env [command; lit "--version"]) as [r | []]; try done.
  by destruct (returncode r =? 0).
Qed.

Lemma print_all_eq lines : print_all lines = (Print <$> lines, Done tt).
Proof.
  induction lines as [| line rest IH]; [done |].
  cbn [print_all]. rewrite IH. reflexivity.
Qed.

Lemma check_usb_devices_outcome env :
  outcome_of (CheckHardwareDeps.check_usb_devices unicode_lower env)
  = Done (CheckHardwareDeps.usb_ok unicode_lower env).
Proof.
  unfold CheckHardwareDeps.check_usb_devices, CheckHardwareDeps.usb_ok.
  destruct (can_import env (lit "serial.tools.list_ports")); [| done].
  destruct (List.filter _ (comports env)) as [| p [| q rest]]; try done;
    by rewrite print_all_eq.
Qed.

Lemma main_eq env :
  CheckHardwareDeps.command_raises env (lit "platformio") = None ->
  CheckHardwareDeps.command_raises env (lit "python3") = None ->
  CheckHardwareDeps.main unicode_lower env =
  ([Print (lit "T-DECK HARDWARE TEST DEPENDENCY CHECK");
    Print (repeat_str (lit "=") 40);
    Print (line_feed :: lit "Python Dependencies:")] ++
   output (CheckHardwareDeps.check_python_package env (lit "serial")
             (Some (lit "pip install pyserial"))) ++
   [Print (line_feed :: lit "System Commands:")] ++
   output (CheckHardwareDeps.check_command env (lit "platformio") (lit "PlatformIO")) ++
   output (CheckHardwareDeps.check_command env (lit "python3") (lit "Python 3")) ++
   [Print (line_feed :: lit "Hardware Detection:")] ++
   output (CheckHardwareDeps.check_usb_devices unicode_lower env) ++
   CheckHardwareDeps.summary_output (CheckHardwareDeps.passed unicode_lower env),
   Done (if CheckHardwareDeps.passed unicode_lower env =? 4 then 0 else 1)).
Proof.
  intros Hpio Hpy.
  pose proof (check_python_package_outcome env (lit "serial")
                (Some (lit "pip install pyserial"))) as H1.
  pose proof (check_command_outcome env (lit "platformio") (lit "PlatformIO")) as H2.
  pose proof (check_command_outcome env (lit "python3") (lit "Python 3")) as H3.
  pose proof (check_usb_devices_outcome env) as H4.
  rewrite Hpio in H2. rewrite Hpy in H3.
  unfold CheckHardwareDeps.main, CheckHardwareDeps.summary_output,
    CheckHardwareDeps.passed.
  destruct (CheckHardwareDeps.check_python_package _ _ _) as [o1 r1].
  destruct (CheckHardwareDeps.check_command env (lit "platformio") _) as [o2 r2].
  destruct (CheckHardwareDeps.check_command env (lit "python3") _) as [o3 r3].
  destruct (CheckHardwareDeps.check_usb_devices _ _) as [o4 r4].
  unfold outcome_of in H1, H2, H3, H4. cbn [snd] in H1, H2, H3, H4. subst r1 r2 r3 r4.
  unfold output. cbn [fst].
  cbv [mbind IO_bind print mret IO_ret].
  generalize (CheckHardwareDeps.tally (CheckHardwareDeps.usb_ok unicode_lower env)
    (CheckHardwareDeps.tally (CheckHardwareDeps.command_ok env (lit "python3"))
       (CheckHardwareDeps.tally (CheckHardwareDeps.command_ok env (lit "platformio"))
          (CheckHardwareDeps.tally (can_import env (lit "serial")) 0)))).
  intros n. destruct (n =? 4); [reflexivity |].
  destruct (n <? 3), (3 <=? n); reflexivity.
Qed.

Lemma passed_range env :
  0 <= CheckHardwareDeps.passed unicode_lower env <= 4.
Proof.
  unfold CheckHardwareDeps.passed, CheckHardwareDeps.tally.
  destruct (CheckHardwareDeps.usb_ok _ _), (CheckHardwareDeps.command_ok env (lit "python3")),
    (CheckHardwareDeps.command_ok env (lit "platformio")), (can_import env (lit "serial"));
    lia.
Qed.

Lemma passed_all env :
  CheckHardwareDeps.passed unicode_lower env = 4 <->
  can_import env (lit "serial") = true /\
  CheckHardwareDeps.command_ok env (lit "platformio") = true /\
  CheckHardwareDeps.command_ok env (lit "python3") = true /\
  CheckHardwareDeps.usb_ok unicode_lower env = true.
Proof.
  unfold CheckHardwareDeps.passed, CheckHardwareDeps.tally.
  destruct (CheckHardwareDeps.usb_ok _ _), (CheckHardwareDeps.command_ok env (lit "python3")),
    (CheckHardwareDeps.command_ok env (lit "platformio")), (can_import env (lit "serial"));
    simpl; intuition (try discriminate; try lia).
Qed.

(** (X15) The dependency check exits with 0 exactly when all four
    checks pass: pyserial can be imported, [platformio --version] and
    [python3 --version] exit with zero, and at least two serial ports
    look like a T-Deck; otherwise it exits with 1.  (For version checks
    that end in the process exiting, in a missing command or in a
    timeout.) *)
Theorem dependency_check_exit_status env :
  CheckHardwareDeps.command_raises env (lit "platformio") = None ->
  CheckHardwareDeps.command_raises env (lit "python3") = None ->
  (exit_status (CheckHardwareDeps.main unicode_lower env) = 0 <->
     can_import env (lit "serial") = true /\
     CheckHardwareDeps.command_ok env (lit "platformio") = true /\
     CheckHardwareDeps.command_ok env (lit "python3") = true /\
     can_import env (lit "serial.tools.list_ports") = true /\
     (2 <= length (List.filter (CheckHardwareDeps.is_potential unicode_lower)
                     (comports env)))%nat) /\
  (exit_status (CheckHardwareDeps.main unicode_lower env) <> 0 ->
   exit_status (CheckHardwareDeps.main unicode_lower env) = 1).
Proof.
  intros Hpio Hpy. rewrite (main_eq env Hpio Hpy).
  unfold exit_status, outcome_of. cbn [snd].
  pose proof (passed_all env) as Hall.
  unfold CheckHardwareDeps.usb_ok in Hall.
  rewrite andb_true_iff, Nat.leb_le in Hall.
  destruct (CheckHardwareDeps.passed unicode_lower env =? 4) eqn:Hn.
  - apply Z.eqb_eq in Hn. split; [| done]. split; [intros _ | done].
    apply Hall in Hn. tauto.
  - apply Z.eqb_neq in Hn. split; [| done]. split; [done |].
    intros H. exfalso. apply Hn, Hall. tauto.
Qed.

(** (X16) [check_command] catches a missing command and a timeout only.
    When [platformio --version] ends in any other exception, [main]
    ends with it right there: the Python 3 and hardware checks are not
    run and no summary is printed. *)
Theorem uncaught_failure_ends_the_check env e :
  CheckHardwareDeps.command_raises env (lit "platformio") = Some e ->
  outcome_of (CheckHardwareDeps.main unicode_lower env) = Failed e /\
  output (CheckHardwareDeps.main unicode_lower env) =
  [Print (lit "T-DECK HARDWARE TEST DEPENDENCY CHECK");
   Print (repeat_str (lit "=") 40);
   Print (line_feed :: lit "Python Dependencies:")] ++
  output (CheckHardwareDeps.check_python_package env (lit "serial")
            (Some (lit "pip install pyserial"))) ++
  [Print (line_feed :: lit "System Commands:");
   Run [lit "platformio"; lit "--version"] None (Some 10)].
Proof.
  intros Hraise.
  pose proof (check_python_package_outcome env (lit "serial")
                (Some (lit "pip install pyserial"))) as H1.
  assert (H2 : CheckHardwareDeps.check_command env (lit "platformio") (lit "PlatformIO")
               = ([Run [lit "platformio"; lit "--version"] None (Some 10)], Failed e)).
  { unfold CheckHardwareDeps.check_command, CheckHardwareDeps.command_raises in *.
    destruct (subprocess_run env [lit "platformio"; lit "--version"]) as [r | []];
      try done; by injection Hraise as <-. }
  unfold CheckHardwareDeps.main. rewrite H2.
  destruct (CheckHardwareDeps.check_python_package _ _ _) as [o1 r1].
  unfold outcome_of in H1. cbn [snd] in H1. subst r1.
  unfold output, outcome_of. cbv [mbind IO_bind print mret IO_ret]. cbn [fst snd].
  split; [reflexivity |]. by rewrite ?app_nil_r.
Qed.

Lemma ends_with_app {A} (l1 l2 suffix : list A) :
  (exists pre, l2 = pre ++ suffix) -> exists pre, l1 ++ l2 = pre ++ suffix.
Proof. intros (pre & ->). exists (l1 ++ pre). by rewrite app_assoc. Qed.

(** (X17) Whatever ends the run, the advice printed last depends on the
    number of passed checks only: with four the script says all is
    there, with exactly three it tells to connect the devices, whichever
    check failed, and with fewer it tells to install software. *)
Theorem advice_depends_on_count_only env :
  CheckHardwareDeps.command_raises env (lit "platformio") = None ->
  CheckHardwareDeps.command_raises env (lit "python3") = None ->
  (CheckHardwareDeps.passed unicode_lower env = 4 ->
   exists pre, output (CheckHardwareDeps.main unicode_lower env) = pre ++
     [Print (party_popper ++ lit " ALL DEPENDENCIES SATISFIED!");
      Print (lit "Ready to run: make test_hardware")]) /\
  (CheckHardwareDeps.passed unicode_lower env = 3 ->
   exists pre, output (CheckHardwareDeps.main unicode_lower env) = pre ++
     [Print (cross_mark ++ lit " Some dependencies missing");
      Print (line_feed :: lit "Next steps:");
      Print (lit "1. Connect T-Deck devices via USB");
      Print (lit "2. Put devices in flashing mode (hold BOOT)");
      Print (lit "3. Run: make test_hardware")]) /\
  (CheckHardwareDeps.passed unicode_lower env < 3 ->
   exists pre, output (CheckHardwareDeps.main unicode_lower env) = pre ++
     [Print (cross_mark ++ lit " Some dependencies missing");
      Print (line_feed :: lit "Next steps:");
      Print (lit "1. Install missing software dependencies");
      Print (lit "3. Run: make test_hardware")]) /\
  0 <= CheckHardwareDeps.passed unicode_lower env <= 4.
Proof.
  intros Hpio Hpy. rewrite (main_eq env Hpio Hpy). unfold output. cbn [fst].
  unfold CheckHardwareDeps.summary_output.
  split; [| split; [| split; [| apply passed_range]]]; intros Hn.
  - rewrite Hn. do 8 apply ends_with_app. by exists [].
  - rewrite Hn. do 8 apply ends_with_app. by exists [].
  - rewrite (proj2 (Z.eqb_neq _ 4)) by lia.
    rewrite (proj2 (Z.ltb_lt _ 3)) by lia.
    rewrite (proj2 (Z.leb_gt 3 _)) by lia.
    do 8 apply ends_with_app. by exists [].
Qed.

(** ** The hardware check against the tester's discovery *)

Lemma candidate_is_potential port :
  is_candidate unicode_lower port = true ->
  CheckHardwareDeps.is_potential unicode_lower port = true.
Proof.
  unfold is_candidate, keywords, CheckHardwareDeps.is_potential,
    CheckHardwareDeps.usb_keywords.
  cbn [existsb].
  repeat match goal with
         | |- context [str_in ?k ?s] => destruct (str_in k s)
         end; done.
Qed.

Lemma filter_length_mono {A} (f g : A -> bool) (l : list A) :
  (forall x, f x = true -> g x = true) ->
  (length (List.filter f l) <= length (List.filter g l))%nat.
Proof.
  intros Hfg. induction l as [| x l IH]; simpl; [done |].
  destruct (f x) eqn:Hf.
  - rewrite (Hfg x Hf). simpl. lia.
  - destruct (g x); simpl; lia.
Qed.

(** (X18) The hardware check of the dependency script accepts every
    port the tester's discovery accepts, and "uart" besides: whenever
    the tester finds its two devices the check passes, but two ports
    known as UART adapters only pass the check and are not found by the
    tester. *)
Theorem hardware_check_covers_discovery env :
  (can_import env (lit "serial.tools.list_ports") = true ->
   find_t_deck_devices unicode_lower (comports env) <> [] ->
   outcome_of (CheckHardwareDeps.check_usb_devices unicode_lower env) = Done true) /\
  outcome_of (CheckHardwareDeps.check_usb_devices unicode_lower uart_env) = Done true /\
  find_t_deck_devices unicode_lower (comports uart_env) = [].
Proof.
  split; [| split; vm_compute; reflexivity].
  intros Himport Hfound. rewrite check_usb_devices_outcome.
  unfold CheckHardwareDeps.usb_ok. rewrite Himport. cbn [andb]. f_equal.
  apply Nat.leb_le.
  pose proof (filter_length_mono (is_candidate unicode_lower)
                (CheckHardwareDeps.is_potential unicode_lower) (comports env)
                candidate_is_potential) as Hmono.
  unfold find_t_deck_devices, t_deck_ports in Hfound. rewrite length_fmap in Hfound.
  destruct (length (List.filter (is_candidate unicode_lower) (comports env)) <? 2)%nat
    eqn:Hlen; [done |].
  apply Nat.ltb_ge in Hlen. lia.
Qed.

(** ** The flashing helper *)

Variable repr_list : list str -> str.

Lemma helper_matches_eq port :
  FlashHelper.matches unicode_lower port = is_candidate unicode_lower port.
Proof. reflexivity. Qed.

Lemma helper_flash_each_eq env ports : forall i,
  (forall p, p ∈ ports -> exists r, subprocess_run env (FlashHelper.upload_command p) = Done r) ->
  List.filter is_run (output (FlashHelper.flash_each env i ports)) =
  (fun p => Run (FlashHelper.upload_command p) (Some (lit "meshtastic")) None) <$> ports /\
  outcome_of (FlashHelper.flash_each env i ports) = Done tt.
Proof.
  induction ports as [| p rest IH]; intros i Hdone; [done |].
  destruct (Hdone p) as [r Hr]; [left |].
  destruct (IH (S i)) as [IHo IHr]; [intros q Hq; apply Hdone; by right |].
  cbn [FlashHelper.flash_each]. rewrite Hr.
  destruct (FlashHelper.flash_each env (S i) rest) as [o res].
  unfold output, outcome_of in *. cbn [fst snd] in *. subst res.
  cbv [mbind IO_bind print run mret IO_ret].
  destruct (returncode r =? 0); cbn [fst snd app List.filter is_run fmap list_fmap];
    by rewrite IHo.
Qed.

Lemma helper_main_runs env :
  (forall p, p ∈ find_t_deck_devices unicode_lower (comports env) ->
             exists r, subprocess_run env (FlashHelper.upload_command p) = Done r) ->
  List.filter is_run (output (FlashHelper.main unicode_lower repr_list env)) =
  (fun p => Run (FlashHelper.upload_command p) (Some (lit "meshtastic")) None)
    <$> find_t_deck_devices unicode_lower (comports env) /\
  outcome_of (FlashHelper.main unicode_lower repr_list env) =
  match find_t_deck_devices unicode_lower (comports env) with
  | [] => Failed (SystemExit 1)
  | _ :: _ => Done tt
  end.
Proof.
  unfold FlashHelper.main, find_t_deck_devices, t_deck_ports.
  change (List.filter (FlashHelper.matches unicode_lower))
    with (List.filter (is_candidate unicode_lower)).
  destruct (length _ <? 2)%nat eqn:Hlen; [done |].
  intros Hdone.
  destruct (helper_flash_each_eq env
              (take 2 (device <$> List.filter (is_candidate unicode_lower) (comports env)))
              0 Hdone) as [Ho Hr].
  destruct (FlashHelper.flash_each env 0 _) as [o res].
  unfold output, outcome_of in *. cbn [fst snd] in *. subst res.
  cbv [mbind IO_bind print]. cbn [fst snd app List.filter is_run].
  split; [exact Ho |].
  apply Nat.ltb_ge in Hlen.
  destruct (device <$> List.filter (is_candidate unicode_lower) (comports env))
    as [| p1 [| p2 rest]]; simpl in Hlen; try lia. done.
Qed.

(** (X19) With two matching ports the helper uploads to exactly the two
    ports the tester would select, in the same order, from the firmware
    directory and with no time limit; the second upload is started
    whatever exit status the first had, and [main] returns normally
    even when both uploads fail.  With fewer than two it raises
    [SystemExit(1)] and uploads nothing. *)
Theorem helper_uploads_to_discovered_ports env :
  (forall p, p ∈ find_t_deck_devices unicode_lower (comports env) ->
             exists r, subprocess_run env (FlashHelper.upload_command p) = Done r) ->
  List.filter is_run (output (FlashHelper.main unicode_lower repr_list env)) =
  (fun p => Run (FlashHelper.upload_command p) (Some (lit "meshtastic")) None)
    <$> find_t_deck_devices unicode_lower (comports env) /\
  outcome_of (FlashHelper.main unicode_lower repr_list env) =
  match find_t_deck_devices unicode_lower (comports env) with
  | [] => Failed (SystemExit 1)
  | _ :: _ => Done tt
  end.
Proof. apply helper_main_runs. Qed.

(** (X20) The helper as a process: it exits with 1 when pyserial is
    missing or fewer than two ports match, and with 0 otherwise,
    whatever the exit status of the uploads; a failed upload never
    shows in the exit status. *)
Theorem helper_exit_status_ignores_uploads env :
  (forall p, p ∈ find_t_deck_devices unicode_lower (comports env) ->
             exists r, subprocess_run env (FlashHelper.upload_command p) = Done r) ->
  exit_status_unit (FlashHelper.script unicode_lower repr_list env) =
  if can_import env (lit "serial.tools.list_ports") &&
     bool_decide (find_t_deck_devices unicode_lower (comports env) <> [])
  then 0 else 1.
Proof.
  intros Hdone. unfold FlashHelper.script, exit_status_unit.
  destruct (can_import env (lit "serial.tools.list_ports")); [| done].
  destruct (helper_main_runs env Hdone) as [_ ->].
  by destruct (find_t_deck_devices unicode_lower (comports env)).
Qed.

(** (X21) Nothing in the helper catches an exception of
    [subprocess.run]: when the first upload raises (no [platformio] on
    the path, say), the second upload is never started and the
    exception leaves [main]. *)
Theorem helper_stops_at_failing_upload env p1 p2 e :
  find_t_deck_devices unicode_lower (comports env) = [p1; p2] ->
  subprocess_run env (FlashHelper.upload_command p1) = Failed e ->
  List.filter is_run (output (FlashHelper.main unicode_lower repr_list env)) =
  [Run (FlashHelper.upload_command p1) (Some (lit "meshtastic")) None] /\
  outcome_of (FlashHelper.main unicode_lower repr_list env) = Failed e.
Proof.
  unfold FlashHelper.main, find_t_deck_devices, t_deck_ports.
  change (List.filter (FlashHelper.matches unicode_lower))
    with (List.filter (is_candidate unicode_lower)).
  destruct (length _ <? 2)%nat; [done |].
  intros -> He. cbn [FlashHelper.flash_each]. by rewrite He.
Qed.

End CheckScript.

(** ** The further properties at work on the scenarios *)

Lemma flash_loop_flashes_every_port_witness :
  exists flash_results,
    flash_loop timeout_world 0 [lit "/dev/ttyUSB0"; lit "/dev/ttyACM0"; lit "/dev/ttyACM1"] ∅ =
    ([EvFlash (lit "/dev/ttyUSB0") (lit "T-Deck-1") 300;
      EvFlash (lit "/dev/ttyACM0") (lit "T-Deck-2") 300; EvSleep 10;
      EvFlash (lit "/dev/ttyACM1") (lit "T-Deck-3") 300; EvSleep 10],
     Ret flash_results) /\
    flash_results !! lit "T-Deck-1" = Some false /\
    flash_results !! lit "T-Deck-3" = Some true.
Proof.
  assert (Hint : forall p,
             p ∈ [lit "/dev/ttyUSB0"; lit "/dev/ttyACM0"; lit "/dev/ttyACM1"] ->
             subprocess_run timeout_world p <> Raise KeyboardInterrupt).
  { intros p _. unfold timeout_world, subprocess_run. by case_decide. }
  destruct (flash_loop_flashes_every_port timeout_world
              [lit "/dev/ttyUSB0"; lit "/dev/ttyACM0"; lit "/dev/ttyACM1"] Hint)
    as (fr & Hloop & Hin & _).
  exists fr. split; [exact Hloop |]. split.
  - exact (Hin 0%nat (lit "/dev/ttyUSB0") eq_refl).
  - exact (Hin 2%nat (lit "/dev/ttyACM1") eq_refl).
Defined.

Lemma interrupted_upload_ends_flashing_witness :
  subprocess_run interrupted_world (lit "/dev/ttyACM0") = Raise KeyboardInterrupt /\
  flash_loop interrupted_world 0
    ([lit "/dev/ttyUSB0"] ++ lit "/dev/ttyACM0" :: [lit "/dev/ttyACM1"]) ∅ =
  ([EvFlash (lit "/dev/ttyUSB0") (lit "T-Deck-1") 300; EvSleep 10;
    EvFlash (lit "/dev/ttyACM0") (lit "T-Deck-2") 300],
   Raise KeyboardInterrupt).
Proof.
  assert (Hp : subprocess_run interrupted_world (lit "/dev/ttyACM0")
               = Raise KeyboardInterrupt) by (vm_compute; reflexivity).
  assert (Hpre : forall q, q ∈ [lit "/dev/ttyUSB0"] ->
                           subprocess_run interrupted_world q <> Raise KeyboardInterrupt).
  { intros q ->%list_elem_of_singleton. vm_compute. discriminate. }
  split; [exact Hp |].
  exact (interrupted_upload_ends_flashing interrupted_world [lit "/dev/ttyUSB0"]
           (lit "/dev/ttyACM0") [lit "/dev/ttyACM1"] Hpre Hp).
Defined.

Lemma run_tests_never_succeeds_witness :
  result (run_tests sample_unicode_lower chatty_world) <> Ret true /\
  (main sample_unicode_lower default_args chatty_world).2 = 1.
Proof.
  exact (run_tests_never_succeeds sample_unicode_lower default_args chatty_world
           sample_unicode_lower_no_ascii_upper).
Defined.

Lemma collect_sorts_by_device_witness :
  exists device_logs',
    collect chatty_items initial_device_logs = Ret device_logs' /\
    dom device_logs' = dom (initial_device_logs : gmap str (list (Z * str))) /\
    device_logs' !! lit "T-Deck-1" = Some [(1, lit "boot"); (3, secure_line)].
Proof.
  assert (Hkeys : forall it, it ∈ chatty_items ->
                             is_Some ((initial_device_logs : gmap str (list (Z * str)))
                                        !! it.1.1)).
  { intros it Hit. unfold chatty_items in Hit.
    repeat (apply elem_of_cons in Hit as [-> | Hit]); try by eexists.
    by apply elem_of_nil in Hit. }
  destruct (collect_sorts_by_device chatty_items initial_device_logs Hkeys)
    as (dl & Hc & Hdom & Hl).
  exists dl. split; [exact Hc |]. split; [exact Hdom |].
  exact (Hl (lit "T-Deck-1") [] eq_refl).
Defined.

Lemma dependency_check_exit_status_witness :
  Script.exit_status (CheckHardwareDeps.main sample_unicode_lower ready_env) = 0 /\
  Script.exit_status (CheckHardwareDeps.main sample_unicode_lower no_platformio_env) = 1.
Proof.
  split.
  - apply (dependency_check_exit_status sample_unicode_lower ready_env eq_refl eq_refl).
    do 4 (split; [vm_compute; reflexivity |]). vm_compute. lia.
  - apply (dependency_check_exit_status sample_unicode_lower no_platformio_env
             eq_refl eq_refl).
    intros [_ [H _]]%(dependency_check_exit_status sample_unicode_lower
                        no_platformio_env eq_refl eq_refl).
    vm_compute in H. discriminate.
Defined.

Lemma uncaught_failure_ends_the_check_witness :
  Script.outcome_of (CheckHardwareDeps.main sample_unicode_lower forbidden_env)
  = Script.Failed Script.OtherException.
Proof.
  exact (proj1 (uncaught_failure_ends_the_check sample_unicode_lower forbidden_env
                  Script.OtherException eq_refl)).
Defined.

(** [platformio] is missing, two boards are connected, and the script
    tells to connect the boards. *)
Lemma advice_depends_on_count_only_witness :
  CheckHardwareDeps.usb_ok sample_unicode_lower no_platformio_env = true /\
  exists pre,
    Script.output (CheckHardwareDeps.main sample_unicode_lower no_platformio_env) = pre ++
    [Script.Print (cross_mark ++ lit " Some dependencies missing");
     Script.Print (line_feed :: lit "Next steps:");
     Script.Print (lit "1. Connect T-Deck devices via USB");
     Script.Print (lit "2. Put devices in flashing mode (hold BOOT)");
     Script.Print (lit "3. Run: make test_hardware")].
Proof.
  split; [vm_compute; reflexivity |].
  apply (advice_depends_on_count_only sample_unicode_lower no_platformio_env
           eq_refl eq_refl).
  vm_compute. reflexivity.
Defined.

Lemma helper_uploads_witness_hyp :
  forall p, p ∈ find_t_deck_devices sample_unicode_lower (Script.comports failing_uploads_env) ->
            exists r, Script.subprocess_run failing_uploads_env (FlashHelper.upload_command p)
                      = Script.Done r.
Proof. intros p _. by eexists. Qed.

Lemma helper_uploads_to_discovered_ports_witness :
  List.filter Script.is_run
    (Script.output (FlashHelper.main sample_unicode_lower sample_repr_list
                      failing_uploads_env)) =
  [Script.Run (FlashHelper.upload_command (lit "/dev/ttyUSB0")) (Some (lit "meshtastic")) None;
   Script.Run (FlashHelper.upload_command (lit "/dev/ttyACM0")) (Some (lit "meshtastic")) None] /\
  Script.outcome_of (FlashHelper.main sample_unicode_lower sample_repr_list
                       failing_uploads_env) = Script.Done tt.
Proof.
  exact (helper_uploads_to_discovered_ports sample_unicode_lower sample_repr_list
           failing_uploads_env helper_uploads_witness_hyp).
Defined.

Lemma helper_exit_status_ignores_uploads_witness :
  Script.exit_status_unit
    (FlashHelper.script sample_unicode_lower sample_repr_list failing_uploads_env) = 0.
Proof.
  exact (helper_exit_status_ignores_uploads sample_unicode_lower sample_repr_list
           failing_uploads_env helper_uploads_witness_hyp).
Defined.

Lemma helper_stops_at_failing_upload_witness :
  List.filter Script.is_run
    (Script.output (FlashHelper.main sample_unicode_lower sample_repr_list
                      no_upload_tool_env)) =
  [Script.Run (FlashHelper.upload_command (lit "/dev/ttyUSB0")) (Some (lit "meshtastic")) None] /\
  Script.outcome_of (FlashHelper.main sample_unicode_lower sample_repr_list
                       no_upload_tool_env) = Script.Failed Script.FileNotFoundError.
Proof.
  exact (helper_stops_at_failing_upload sample_unicode_lower sample_repr_list
           no_upload_tool_env (lit "/dev/ttyUSB0") (lit "/dev/ttyACM0")
           Script.FileNotFoundError eq_refl eq_refl).
Defined.

(** What the version check prints for a tool that answers. *)
Example check_command_prints_first_line :
  CheckHardwareDeps.check_command ready_env (lit "platformio") (lit "PlatformIO") =
  ([Script.Run [lit "platformio"; lit "--version"] None (Some 10);
    Script.Print (check_mark ++ lit " PlatformIO: Version 6.1")],
   Script.Done true).
Proof. vm_compute. reflexivity. Qed.
